(** * Excalidraw MCP server: the tool-call handler of [src/index.js]

    A shallow embedding of the request handler registered for
    [CallToolRequestSchema] in [src/index.js], and the properties of the
    element repository and of the scene serializer that follow from it.

    Modelling conventions.
    - A JavaScript value is a [value]; a plain object is a finite map from
      property names to values ([gmap string value]), so property order is
      not represented.
    - A JavaScript number is an exact rational ([Q]), kept in lowest terms
      by [Qred] after every arithmetic step, so that stored numbers can be
      compared with [=].  IEEE rounding, [NaN] and the infinities are not
      represented: tool arguments arrive as JSON, which has none of them,
      and zod's [z.number()] rejects [NaN].
    - Strings are [string]s of bytes; [toLowerCase] acts on ASCII letters.
    - The repository [elements] is a JavaScript [Map]: an association list in
      insertion order.
    - [Date.now()], [Math.random()], [generateId()] and the outcome of
      [fs.writeFile] are inputs of each call (record [env]); a write is
      recorded with the document it serializes, [JSON.stringify] itself and
      the calls to [logger] are not represented. *)

From Stdlib Require Import QArith Qround Qminmax Ascii String.
From Stdlib Require Qcanon.
From stdpp Require Import gmap strings list fin_maps.

Set Warnings "-register-all".
Local Open Scope string_scope.

(** ** JavaScript values *)

Module JS.

Inductive value :=
| VUndef
| VNull
| VBool (b : bool)
| VNum (q : Q)
| VStr (s : string)
| VArr (l : list value)
| VObj (o : gmap string value)
| VNative (name : string).   (* a built-in function or prototype object *)

Abbreviation obj := (gmap string value).

(** [o[k]] on an own property: a missing key reads as [undefined]. *)
Definition get (o : obj) (k : string) : value := default VUndef (o !! k).

Definition is_undefined (v : value) : bool :=
  match v with VUndef => true | _ => false end.

Definition nullish (v : value) : bool :=
  match v with VUndef | VNull => true | _ => false end.

(** [v ?? d] *)
Definition coalesce (v d : value) : value := if nullish v then d else v.

(** ToBoolean *)
Definition truthy (v : value) : bool :=
  match v with
  | VUndef | VNull => false
  | VBool b => b
  | VNum q => negb (Qeq_bool q 0)
  | VStr s => negb (String.eqb s "")
  | VArr _ | VObj _ | VNative _ => true
  end.

(** [v || d] *)
Definition or_else (v d : value) : value := if truthy v then v else d.

Definition is_string (v : value) : bool :=
  match v with VStr _ => true | _ => false end.

Definition is_number (v : value) : bool :=
  match v with VNum _ => true | _ => false end.

Definition is_boolean (v : value) : bool :=
  match v with VBool _ => true | _ => false end.

(** [v === s] for a string literal [s] *)
Definition eq_str (v : value) (s : string) : bool :=
  match v with VStr t => String.eqb t s | _ => false end.

(** [a === b].  Arrays and objects compare by reference; the only place that
    compares arbitrary values ([query_elements]) compares a stored property
    with a freshly parsed filter value, which are never the same reference. *)
Definition strict_eq (a b : value) : bool :=
  match a, b with
  | VUndef, VUndef | VNull, VNull => true
  | VBool x, VBool y => Bool.eqb x y
  | VNum x, VNum y => Qeq_bool x y
  | VStr x, VStr y => String.eqb x y
  | _, _ => false
  end.

Definition num (z : Z) : value := VNum (inject_Z z).

(** [String.prototype.toLowerCase], on ASCII letters *)
Definition lower_ascii (c : ascii) : ascii :=
  let n := nat_of_ascii c in
  if (65 <=? n)%nat && (n <=? 90)%nat then ascii_of_nat (n + 32) else c.

Fixpoint toLowerCase (s : string) : string :=
  match s with
  | EmptyString => EmptyString
  | String c r => String (lower_ascii c) (toLowerCase r)
  end.

(** [s.endsWith(suffix)] *)
Definition endsWith (s suffix : string) : bool :=
  let n := String.length s in
  let m := String.length suffix in
  (m <=? n)%nat && String.eqb (substring (n - m) m s) suffix.

(** [Math.floor(r * 2 ** 31)] *)
Definition random31 (r : Q) : value := num (Qfloor (r * inject_Z (2 ^ 31))).

(** [Math.max(0, Math.min(100, q * 100))] *)
Definition clamp100 (q : Q) : Q := Qred (Qmax 0 (Qmin 100 (q * 100))).

(** [(v || 0) + 1].  On a number this is the successor.  The stored
    [version] is always a number (see [reachable_version_is_number]); for the other
    shapes the result follows JavaScript's [+] where that is a number or a
    string concatenation of a string, and is left as [VUndef] for arrays,
    objects and built-ins, whose string conversion is not represented. *)
Definition or0_plus1 (v : value) : value :=
  match or_else v (VNum 0) with
  | VNum q => VNum (Qred (q + 1))
  | VBool _ => VNum 2
  | VStr s => VStr (s +:+ "1")
  | _ => VUndef
  end.

(** [!pts || pts.length < 2].  [points] is [undefined] or an array on every
    stored record (zod validates it on create and on update); for an object
    with its own [length] property only a numeric length is compared. *)
Definition fewer_than_2_points (pts : value) : bool :=
  negb (truthy pts) ||
  match pts with
  | VArr l => (length l <? 2)%nat
  | VStr s => (String.length s <? 2)%nat
  | VObj o => match get o "length" with
              | VNum q => match Qcompare q 2 with Lt => true | _ => false end
              | _ => false
              end
  | _ => false
  end.

(** Deleting every key whose value is [undefined]. *)
Definition strip_undefined (o : obj) : obj :=
  filter (fun kv => is_undefined kv.2 = false) o.

(** An object literal, written as the list of its [key: value] entries. *)
Definition literal (l : list (string * value)) : obj := list_to_map l.

Fixpoint assoc (k : string) (l : list (string * value)) : option value :=
  match l with
  | [] => None
  | (k', v) :: r => if String.eqb k' k then Some v else assoc k r
  end.

End JS.
Import JS.

(** ** The JavaScript [Map]

    Keys are strings; iteration follows insertion order, [set] on a key
    that is present replaces the value at its place. *)

Module JsMap.

Section Ops.
Context {V : Type}.

Fixpoint get (k : string) (m : list (string * V)) : option V :=
  match m with
  | [] => None
  | (k', v) :: r => if String.eqb k' k then Some v else get k r
  end.

Definition has (k : string) (m : list (string * V)) : bool :=
  match get k m with Some _ => true | None => false end.

Fixpoint set (k : string) (v : V) (m : list (string * V)) : list (string * V) :=
  match m with
  | [] => [(k, v)]
  | (k', v') :: r =>
      if String.eqb k' k then (k', v) :: r else (k', v') :: set k v r
  end.

Fixpoint delete (k : string) (m : list (string * V)) : list (string * V) :=
  match m with
  | [] => []
  | (k', v') :: r => if String.eqb k' k then r else (k', v') :: delete k r
  end.

Definition values (m : list (string * V)) : list V := map snd m.

Definition keys (m : list (string * V)) : list string := map fst m.

End Ops.

End JsMap.

(** ** zod schemas *)

Module Zod.

(** [schema.optional()] *)
Definition optional (check : value -> bool) (v : value) : bool :=
  is_undefined v || check v.

(** [z.enum(names)] *)
Definition enum (names : list string) (v : value) : bool :=
  match v with VStr s => existsb (String.eqb s) names | _ => false end.

(** [z.array(z.string())] *)
Definition string_array (v : value) : option (list string) :=
  match v with
  | VArr l => mapM (fun x => match x with VStr s => Some s | _ => None end) l
  | _ => None
  end.

(** [z.object({ x: z.number(), y: z.number() })]: unknown keys are dropped *)
Definition point (v : value) : option value :=
  match v with
  | VObj o =>
      match get o "x", get o "y" with
      | VNum x, VNum y => Some (VObj (literal [("x", VNum x); ("y", VNum y)]))
      | _, _ => None
      end
  | _ => None
  end.

(** [z.array(point).optional()] *)
Definition points (v : value) : option value :=
  match v with
  | VUndef => Some VUndef
  | VArr l => VArr <$> mapM point l
  | _ => None
  end.

Section Schemas.

(** [Object.values(EXCALIDRAW_ELEMENT_TYPES)]: the table is exported by
    [types.js], which is not part of the sources at hand. *)
Variable EXCALIDRAW_ELEMENT_TYPES : list string.

(** The scalar fields of [ElementSchema]; [partial] is [.partial()]. *)
Definition scalars_ok (partial : bool) (a : obj) : bool :=
  let required check v := if partial then optional check v else check v in
  required (enum EXCALIDRAW_ELEMENT_TYPES) (get a "type")
  && required is_number (get a "x")
  && required is_number (get a "y")
  && optional is_number (get a "width")
  && optional is_number (get a "height")
  && optional is_string (get a "backgroundColor")
  && optional is_string (get a "strokeColor")
  && optional is_number (get a "strokeWidth")
  && optional is_number (get a "roughness")
  && optional is_number (get a "opacity")
  && optional is_string (get a "text")
  && optional is_number (get a "fontSize")
  && optional is_number (get a "fontFamily")
  && optional is_boolean (get a "locked").

(** [ElementSchema.passthrough().parse(a)] ([partial = false]) and
    [ElementSchema.partial().passthrough().parse(a)] ([partial = true]):
    [None] when zod throws.  Keys outside the schema are kept as they are. *)
Definition ElementSchema (partial : bool) (a : obj) : option obj :=
  if scalars_ok partial a then
    match points (get a "points") with
    | Some p => Some (if decide (is_Some (a !! "points")) then <["points" := p]> a else a)
    | None => None
    end
  else None.

(** [ElementSchema.partial().extend({ id: ElementIdSchema.shape.id }).passthrough()] *)
Definition UpdateSchema (a : obj) : option obj :=
  if is_string (get a "id") then ElementSchema true a else None.

(** [ElementIdSchema], [GroupIdSchema]: one required string *)
Definition string_field (k : string) (a : obj) : option string :=
  match get a k with VStr s => Some s | _ => None end.

(** [ElementIdsSchema] *)
Definition ElementIdsSchema (a : obj) : option (list string) :=
  string_array (get a "elementIds").

(** [AlignElementsSchema] *)
Definition AlignElementsSchema (a : obj) : option (list string * string) :=
  match string_array (get a "elementIds"), get a "alignment" with
  | Some ids, VStr al =>
      if existsb (String.eqb al) ["left"; "center"; "right"; "top"; "middle"; "bottom"]
      then Some (ids, al) else None
  | _, _ => None
  end.

(** [DistributeElementsSchema] *)
Definition DistributeElementsSchema (a : obj) : option (list string * string) :=
  match string_array (get a "elementIds"), get a "direction" with
  | Some ids, VStr d =>
      if existsb (String.eqb d) ["horizontal"; "vertical"]
      then Some (ids, d) else None
  | _, _ => None
  end.

(** [QuerySchema]: an optional type and an optional record *)
Definition QuerySchema (a : obj) : option (value * option obj) :=
  if optional (enum EXCALIDRAW_ELEMENT_TYPES) (get a "type") then
    match get a "filter" with
    | VUndef => Some (get a "type", None)
    | VObj f => Some (get a "type", Some f)
    | _ => None
    end
  else None.

(** [ResourceSchema] *)
Definition ResourceSchema (a : obj) : option string :=
  match get a "resource" with
  | VStr r => if existsb (String.eqb r) ["scene"; "library"; "theme"; "elements"]
              then Some r else None
  | _ => None
  end.

(** [SaveSceneSchema]: an optional string *)
Definition SaveSceneSchema (a : obj) : option value :=
  if optional is_string (get a "filename") then Some (get a "filename") else None.

End Schemas.

End Zod.

(** ** The server state and the tool handlers *)

Module Server.

(** [sceneState] *)
Record sceneState := {
  theme : value;
  viewBackgroundColor : value;
  viewport : value;
  selectedElements : list string;           (* a [Set], in insertion order *)
  groups : list (string * list string)      (* a [Map] *)
}.

(** Modelled from the spec: [elements] is exported by [types.js], which is
    not among the sources; the handler uses it through [get], [set], [has],
    [delete] and [values], and the spec (section 2, Element Repository) calls
    it the mapping from element identifier to element record: a [Map]. *)
Record state := {
  elements : list (string * obj);
  scene : sceneState
}.

Definition initial_sceneState : sceneState := {|
  theme := VStr "light";
  viewBackgroundColor := VStr "#ffffff";
  viewport := VObj (literal [("x", VNum 0); ("y", VNum 0); ("zoom", VNum 1)]);
  selectedElements := [];
  groups := []
|}.

Definition initial_state : state :=
  {| elements := []; scene := initial_sceneState |}.

Definition with_elements (s : state) (m : list (string * obj)) : state :=
  {| elements := m; scene := scene s |}.

Definition with_groups (s : state) (g : list (string * list string)) : state :=
  {| elements := elements s;
     scene := {| theme := theme (scene s);
                 viewBackgroundColor := viewBackgroundColor (scene s);
                 viewport := viewport (scene s);
                 selectedElements := selectedElements (scene s);
                 groups := g |} |}.

(** What one call reads from outside the handler. *)
Record env := {
  generateId : string;          (* the result of [generateId()] *)
  Date_now : Z;                 (* the result of [Date.now()] *)
  Math_random_1 : Q;            (* the first [Math.random()] of the call *)
  Math_random_2 : Q;            (* the second one *)
  writeFile_error : option string (* [fs.writeFile]: resolved, or rejected with this message *)
}.

(** A thrown exception: zod's, or [new Error(message)]. *)
Inductive exn :=
| ZodError
| Error (message : string).

(** The text of the single content item of a result.  [Json v] is
    [JSON.stringify(v, null, 2)]; [ZodIssues] is ["Error: "] followed by
    zod's listing of the issues. *)
Inductive text :=
| Json (v : value)
| Plain (s : string)
| ZodIssues.

Record response := { content : text; isError : bool }.

(** One [fs.writeFile(filename, JSON.stringify(document, null, 2), 'utf8')] *)
Record write := { filename : string; document : value }.

Record outcome := {
  final : state;
  written : list write;
  result : response
}.

Definition ok (s : state) (v : value) : exn + outcome :=
  inr {| final := s; written := []; result := {| content := Json v; isError := false |} |}.

Definition throw (e : exn) : exn + outcome := inl e.

(** The [catch] of the request handler *)
Definition caught (s : state) (e : exn) : outcome :=
  {| final := s; written := [];
     result := {| content := match e with
                             | ZodError => ZodIssues
                             | Error m => Plain ("Error: " +:+ m)
                             end;
                  isError := true |} |}.

Definition strings (l : list string) : value := VArr (VStr <$> l).

Definition records (m : list (string * obj)) : value := VArr (VObj <$> JsMap.values m).

(** [fontMap[k]]: the three own properties, then [Object.prototype] *)
Definition fontMap : list (string * value) :=
  [("virgil", VNum 1); ("helvetica", VNum 2); ("cascadia", VNum 3)].

Definition Object_prototype : list string :=
  ["constructor"; "__proto__"; "hasOwnProperty"; "isPrototypeOf";
   "propertyIsEnumerable"; "toLocaleString"; "toString"; "valueOf";
   "__defineGetter__"; "__defineSetter__"; "__lookupGetter__"; "__lookupSetter__"].

Definition fontMap_get (k : string) : value :=
  match assoc k fontMap with
  | Some v => v
  | None => if existsb (String.eqb k) Object_prototype then VNative k else VUndef
  end.

(** [params.opacity * 100], clamped; zod leaves a number here *)
Definition rescale_opacity (v : value) : value :=
  match v with VNum q => VNum (clamp100 q) | _ => v end.

(** [el.type === 'arrow' || el.type === 'line'] *)
Definition is_linear (el : obj) : bool :=
  eq_str (get el "type") "arrow" || eq_str (get el "type") "line".

(** [[0, 0], [el.width || 10, el.height || 0]] *)
Definition default_points (el : obj) : value :=
  VArr [VArr [VNum 0; VNum 0];
        VArr [or_else (get el "width") (VNum 10); or_else (get el "height") (VNum 0)]].

(** The first statement of [create_element] *)
Definition map_fontFamily (args : obj) : obj :=
  match get args "fontFamily" with
  | VStr s =>
      if truthy (VStr s)
      then <["fontFamily" := coalesce (fontMap_get (toLowerCase s)) (VNum 1)]> args
      else args
  | _ => args
  end.

(** The object literal [element] of [create_element] *)
Definition element_literal (e : env) (params : obj) : list (string * value) :=
  [ ("id", VStr (generateId e));
    ("type", get params "type");
    ("x", get params "x");
    ("y", get params "y");
    ("width", coalesce (get params "width") (VNum 10));
    ("height", coalesce (get params "height") (VNum 10));
    ("seed", random31 (Math_random_1 e));
    ("version", VNum 1);
    ("versionNonce", random31 (Math_random_2 e));
    ("isDeleted", VBool false);
    ("locked", coalesce (get params "locked") (VBool false));
    ("angle", coalesce (get params "angle") (VNum 0));
    ("fillStyle", coalesce (get params "fillStyle") (VStr "hachure"));
    ("strokeWidth", coalesce (get params "strokeWidth") (VNum 1));
    ("strokeStyle", coalesce (get params "strokeStyle") (VStr "solid"));
    ("roughness", coalesce (get params "roughness") (VNum 1));
    ("opacity", if is_undefined (get params "opacity") then VNum 100
                else rescale_opacity (get params "opacity"));
    ("groupIds", VArr []);
    ("frameId", VNull);
    ("roundness", coalesce (get params "roundness") VNull);
    ("boundElements", VNull);
    ("link", VNull);
    ("updated", num (Date_now e));
    ("strokeColor", coalesce (get params "strokeColor") (VStr "#000000"));
    ("backgroundColor", coalesce (get params "backgroundColor") (VStr "transparent"));
    ("text", coalesce (get params "text") (VStr ""));
    ("fontSize", coalesce (get params "fontSize") (VNum 20));
    ("fontFamily", coalesce (get params "fontFamily") (VNum 1));
    ("textAlign", coalesce (get params "textAlign") (VStr "center"));
    ("verticalAlign", coalesce (get params "verticalAlign") (VStr "middle"));
    ("containerId", VNull);
    ("originalText", coalesce (get params "text") (VStr ""));
    ("points", get params "points");
    ("startBinding", VNull);
    ("endBinding", VNull);
    ("lastCommittedPoint", VNull);
    ("startArrowhead", VNull);
    ("endArrowhead", VNull);
    ("fileId", VNull);
    ("scale", VArr [VNum 1; VNum 1]);
    ("status", VStr "saved") ].

(** The [if] that follows the literal: points and arrowheads *)
Definition synthesize_points (el : obj) : obj :=
  if is_linear el && fewer_than_2_points (get el "points") then
    let el1 := <["points" := default_points el]> el in
    if eq_str (get el1 "type") "arrow" then
      let el2 := <["startArrowhead" := coalesce (get el1 "startArrowhead") VNull]> el1 in
      <["endArrowhead" := coalesce (get el2 "endArrowhead") (VStr "arrow")]> el2
    else el1
  else el.

(** The record that [create_element] stores for parsed [params] *)
Definition new_element (e : env) (params : obj) : obj :=
  strip_undefined (synthesize_points (literal (element_literal e params))).

(** [{ ...existingElement, ...updates, version, versionNonce, updated }]
    without [createdAt] and [updatedAt] *)
Definition merged_element (e : env) (existing updates : obj) : obj :=
  let potentialNewElement :=
    <["updated" := num (Date_now e)]>
      (<["versionNonce" := random31 (Math_random_1 e)]>
         (<["version" := or0_plus1 (get existing "version")]>
            (updates ∪ existing))) in
  delete "updatedAt" (delete "createdAt" potentialNewElement).

(** The two rewrites of [updates] in [update_element] *)
Definition update_fontFamily (existing updates : obj) : obj :=
  match get updates "fontFamily" with
  | VStr s =>
      <["fontFamily" := coalesce (fontMap_get (toLowerCase s)) (get existing "fontFamily")]> updates
  | _ => updates
  end.

Definition update_opacity (updates : obj) : obj :=
  if is_undefined (get updates "opacity") then updates
  else <["opacity" := rescale_opacity (get updates "opacity")]> updates.

(** The repair step of [save_scene] *)
Definition repair (el : obj) : obj :=
  if is_linear el && fewer_than_2_points (get el "points")
  then <["points" := default_points el]> el
  else el.

(** [sceneState.viewport?.k] *)
Definition viewport_get (vp : value) (k : string) : value :=
  match vp with VObj o => get o k | _ => VUndef end.

(** The object literal [sceneData] of [save_scene] *)
Definition sceneData (sc : sceneState) (elementsToSave : list obj) : value :=
  VObj (literal
    [ ("type", VStr "excalidraw");
      ("version", VNum 2);
      ("source", VStr "mcp-server");
      ("elements", VArr (VObj <$> elementsToSave));
      ("appState", VObj (literal
         [ ("viewBackgroundColor", coalesce (viewBackgroundColor sc) (VStr "#ffffff"));
           ("scrollX", coalesce (viewport_get (viewport sc) "x") (VNum 0));
           ("scrollY", coalesce (viewport_get (viewport sc) "y") (VNum 0));
           ("zoom", VObj (literal [("value", coalesce (viewport_get (viewport sc) "zoom") (VNum 1))]));
           ("selectedElementIds",
              VObj (literal ((fun id => (id, VBool true)) <$> selectedElements sc)));
           ("gridSize", VNull);
           ("zenModeEnabled", VBool false);
           ("editingGroupId", VNull);
           ("theme", coalesce (theme sc) (VStr "light"));
           ("currentItemStrokeColor", VStr "#000000");
           ("currentItemBackgroundColor", VStr "transparent");
           ("currentItemFillStyle", VStr "hachure");
           ("currentItemStrokeWidth", VNum 1);
           ("currentItemStrokeStyle", VStr "solid");
           ("currentItemRoughness", VNum 1);
           ("currentItemOpacity", VNum 100);
           ("currentItemFontFamily", VNum 1);
           ("currentItemFontSize", VNum 20);
           ("currentItemTextAlign", VStr "center");
           ("currentItemStartArrowhead", VNull);
           ("currentItemEndArrowhead", VStr "arrow") ]));
      ("files", VObj ∅) ]).

(** [element.locked = b] on every named element that exists *)
Definition set_locked (b : bool) (ids : list string) (m : list (string * obj))
  : list (string * obj) :=
  foldl (fun acc id =>
           match JsMap.get id acc with
           | Some el => JsMap.set id (<["locked" := VBool b]> el) acc
           | None => acc
           end) m ids.

(** [params.filename || 'mcp_scene.excalidraw']; the schema leaves a string
    or [undefined] *)
Definition filename_or_default (given : value) : string :=
  match or_else given (VStr "mcp_scene.excalidraw") with
  | VStr f => f
  | _ => "mcp_scene.excalidraw"
  end.

(** Every entry of a query filter: [element[key] === value] *)
Definition matches (f : obj) (el : obj) : bool :=
  forallb (fun kv => strict_eq (get el kv.1) kv.2) (map_to_list f).

Section Handlers.

Variable EXCALIDRAW_ELEMENT_TYPES : list string.

Definition not_found (id : string) : exn :=
  Error ("Element with ID " +:+ id +:+ " not found").

(** [case 'create_element'] *)
Definition create_element (e : env) (s : state) (args : obj) : exn + outcome :=
  match Zod.ElementSchema EXCALIDRAW_ELEMENT_TYPES false (map_fontFamily args) with
  | None => throw ZodError
  | Some params =>
      let element := new_element e params in
      ok (with_elements s (JsMap.set (generateId e) element (elements s)))
         (VObj (literal [("id", get element "id"); ("type", get element "type");
                         ("created", VBool true)]))
  end.

(** [case 'update_element'] *)
Definition update_element (e : env) (s : state) (args : obj) : exn + outcome :=
  match Zod.UpdateSchema EXCALIDRAW_ELEMENT_TYPES args with
  | None => throw ZodError
  | Some rawParams =>
      match get rawParams "id" with
      | VStr id =>
          let updates := delete "id" rawParams in
          if String.eqb id "" then throw (Error "Element ID is required")
          else match JsMap.get id (elements s) with
               | None => throw (not_found id)
               | Some existingElement =>
                   let updates := update_opacity (update_fontFamily existingElement updates) in
                   let potentialNewElement := merged_element e existingElement updates in
                   ok (with_elements s (JsMap.set id potentialNewElement (elements s)))
                      (VObj (literal [("id", get potentialNewElement "id");
                                      ("updated", VBool true);
                                      ("version", get potentialNewElement "version")]))
               end
      | _ => throw ZodError
      end
  end.

(** [case 'delete_element'] *)
Definition delete_element (s : state) (args : obj) : exn + outcome :=
  match Zod.string_field "id" args with
  | None => throw ZodError
  | Some id =>
      if negb (JsMap.has id (elements s)) then throw (not_found id)
      else ok (with_elements s (JsMap.delete id (elements s)))
              (VObj (literal [("id", VStr id); ("deleted", VBool true)]))
  end.

(** [case 'query_elements'] *)
Definition query_elements (s : state) (args : obj) : exn + outcome :=
  match Zod.QuerySchema EXCALIDRAW_ELEMENT_TYPES args with
  | None => throw ZodError
  | Some (type, filter) =>
      let results := JsMap.values (elements s) in
      let results :=
        if truthy type
        then List.filter (fun el => strict_eq (get el "type") type) results
        else results in
      let results :=
        match filter with
        | Some f => List.filter (matches f) results
        | None => results
        end in
      ok s (VArr (VObj <$> results))
  end.

(** [case 'get_resource'] *)
Definition get_resource (s : state) (args : obj) : exn + outcome :=
  match Zod.ResourceSchema args with
  | None => throw ZodError
  | Some resource =>
      if String.eqb resource "scene" then
        ok s (VObj (literal [("theme", theme (scene s));
                             ("viewport", viewport (scene s));
                             ("selectedElements", strings (selectedElements (scene s)))]))
      else if String.eqb resource "library" then
        ok s (VObj (literal [("elements", records (elements s))]))
      else if String.eqb resource "theme" then
        ok s (VObj (literal [("theme", theme (scene s))]))
      else if String.eqb resource "elements" then
        ok s (VObj (literal [("elements", records (elements s))]))
      else throw (Error ("Unknown resource: " +:+ resource))
  end.

(** [case 'group_elements'] *)
Definition group_elements (e : env) (s : state) (args : obj) : exn + outcome :=
  match Zod.ElementIdsSchema args with
  | None => throw ZodError
  | Some elementIds =>
      let groupId := generateId e in
      ok (with_groups s (JsMap.set groupId elementIds (groups (scene s))))
         (VObj (literal [("groupId", VStr groupId); ("elementIds", strings elementIds)]))
  end.

(** [case 'ungroup_elements'] *)
Definition ungroup_elements (s : state) (args : obj) : exn + outcome :=
  match Zod.string_field "groupId" args with
  | None => throw ZodError
  | Some groupId =>
      match JsMap.get groupId (groups (scene s)) with
      | None => throw (Error ("Group " +:+ groupId +:+ " not found"))
      | Some elementIds =>
          ok (with_groups s (JsMap.delete groupId (groups (scene s))))
             (VObj (literal [("groupId", VStr groupId); ("ungrouped", VBool true);
                             ("elementIds", strings elementIds)]))
      end
  end.

(** [case 'align_elements'] *)
Definition align_elements (s : state) (args : obj) : exn + outcome :=
  match Zod.AlignElementsSchema args with
  | None => throw ZodError
  | Some (elementIds, alignment) =>
      ok s (VObj (literal [("aligned", VBool true); ("elementIds", strings elementIds);
                           ("alignment", VStr alignment)]))
  end.

(** [case 'distribute_elements'] *)
Definition distribute_elements (s : state) (args : obj) : exn + outcome :=
  match Zod.DistributeElementsSchema args with
  | None => throw ZodError
  | Some (elementIds, direction) =>
      ok s (VObj (literal [("distributed", VBool true); ("elementIds", strings elementIds);
                           ("direction", VStr direction)]))
  end.

(** [case 'lock_elements'] and [case 'unlock_elements'] *)
Definition lock_elements (s : state) (args : obj) : exn + outcome :=
  match Zod.ElementIdsSchema args with
  | None => throw ZodError
  | Some elementIds =>
      ok (with_elements s (set_locked true elementIds (elements s)))
         (VObj (literal [("locked", VBool true); ("elementIds", strings elementIds)]))
  end.

Definition unlock_elements (s : state) (args : obj) : exn + outcome :=
  match Zod.ElementIdsSchema args with
  | None => throw ZodError
  | Some elementIds =>
      ok (with_elements s (set_locked false elementIds (elements s)))
         (VObj (literal [("unlocked", VBool true); ("elementIds", strings elementIds)]))
  end.

(** [case 'save_scene'] *)
Definition save_scene (e : env) (s : state) (args : obj) : exn + outcome :=
  match Zod.SaveSceneSchema args with
  | None => throw ZodError
  | Some given =>
      let filename := filename_or_default given in
      if negb (endsWith filename ".excalidraw")
      then throw (Error "Filename must end with .excalidraw")
      else
        let repaired := prod_map id repair <$> elements s in
        let doc := sceneData (scene s) (JsMap.values repaired) in
        inr {| final := with_elements s repaired;
               written := [{| filename := filename; document := doc |}];
               result :=
                 match writeFile_error e with
                 | None =>
                     {| content := Plain ("Scene saved successfully to " +:+ filename);
                        isError := false |}
                 | Some message =>
                     {| content := Plain ("Error saving scene: " +:+ message);
                        isError := true |}
                 end |}
  end.

(** The [switch] on the tool name *)
Definition dispatch (name : string) (e : env) (s : state) (args : obj) : exn + outcome :=
  if String.eqb name "create_element" then create_element e s args
  else if String.eqb name "update_element" then update_element e s args
  else if String.eqb name "delete_element" then delete_element s args
  else if String.eqb name "query_elements" then query_elements s args
  else if String.eqb name "get_resource" then get_resource s args
  else if String.eqb name "group_elements" then group_elements e s args
  else if String.eqb name "ungroup_elements" then ungroup_elements s args
  else if String.eqb name "align_elements" then align_elements s args
  else if String.eqb name "distribute_elements" then distribute_elements s args
  else if String.eqb name "lock_elements" then lock_elements s args
  else if String.eqb name "unlock_elements" then unlock_elements s args
  else if String.eqb name "save_scene" then save_scene e s args
  else throw (Error ("Unknown tool: " +:+ name)).

(** The request handler: the [switch] inside [try], and its [catch] *)
Definition call_tool (name : string) (e : env) (s : state) (args : obj) : outcome :=
  match dispatch name e s args with
  | inr o => o
  | inl x => caught s x
  end.

(** The states the server can be in: those reached from the initial one by
    tool calls. *)
Inductive reachable : state -> Prop :=
| reachable_initial : reachable initial_state
| reachable_call name e s args :
    reachable s -> reachable (final (call_tool name e s args)).

End Handlers.

(** The element type names that the spec lists (section 3); used where a
    statement needs a concrete table. *)
Definition listed_types : list string :=
  ["rectangle"; "ellipse"; "diamond"; "text"; "arrow"; "line"; "freedraw"; "image"; "frame"].

End Server.

Import Server.

(** ** Vocabulary of the statements, and sample calls *)

(** The record stored under the identifier that a [create_element] call drew. *)
Definition created (types : list string) (e : env) (s : state) (args : obj) : option obj :=
  JsMap.get (generateId e) (elements (final (call_tool types "create_element" e s args))).

(** The record stored under [id] after an [update_element] call. *)
Definition updated (types : list string) (e : env) (s : state) (args : obj) (id : string)
  : option obj :=
  JsMap.get id (elements (final (call_tool types "update_element" e s args))).

(** How many points the caller supplied. *)
Definition supplied_points (args : obj) : nat :=
  match get args "points" with VArr l => length l | _ => 0%nat end.

(** A point in the object form of [ElementSchema]: [{ x, y }]. *)
Definition point_obj (p : Q * Q) : value :=
  VObj (literal [("x", VNum p.1); ("y", VNum p.2)]).

(** The message of the not-found failure of [update_element] and
    [delete_element], as it reaches the caller. *)
Definition not_found_response (id : string) : response :=
  {| content := Plain ("Error: Element with ID " +:+ id +:+ " not found"); isError := true |}.

(** A number is on the integer scale from 0 to 100. *)
Definition integer_0_100 (v : value) : Prop :=
  exists (q : Q) (n : Z), v = VNum q /\ (q == inject_Z n)%Q /\ (0 <= n <= 100)%Z.

(** The shape of the records that the handlers store: [version] is an
    integer from 1 up, and [points] is absent or an array. *)
Definition wf_record (el : obj) : Prop :=
  (exists n : Z, (1 <= n)%Z /\ get el "version" = num n) /\
  (get el "points" = VUndef \/ exists l, get el "points" = VArr l).

Definition wf_store (m : list (string * obj)) : Prop :=
  Forall (fun kv => wf_record kv.2) m.

(** The stored opacity for a supplied one: absent gives 100, a number [v]
    gives [v * 100] clamped to the interval from 0 to 100. *)
Definition stored_opacity (supplied stored : value) : Prop :=
  match supplied with
  | VUndef => stored = VNum 100
  | VNum v => exists q, stored = VNum q /\ (q == Qmax 0 (Qmin 100 (v * 100)) /\ 0 <= q <= 100)%Q
  | _ => False
  end.

(** The [elements] array of a saved document. *)
Definition document_elements (d : value) : list value :=
  match d with
  | VObj o => match get o "elements" with VArr l => l | _ => [] end
  | _ => []
  end.

(** The integer code of a font name: [virgil], [helvetica], [cascadia] in
    any letter case, and 1 for every other name. *)
Definition font_code (name : string) : Q :=
  let k := toLowerCase name in
  if String.eqb k "virgil" then 1
  else if String.eqb k "helvetica" then 2
  else if String.eqb k "cascadia" then 3
  else 1.

Module Sample.

Definition env0 : env :=
  {| generateId := "el-1"; Date_now := 1000;
     Math_random_1 := 1 # 2; Math_random_2 := 1 # 4;
     writeFile_error := None |}.

Definition env1 : env :=
  {| generateId := "el-2"; Date_now := 2000;
     Math_random_1 := 3 # 4; Math_random_2 := 1 # 8;
     writeFile_error := None |}.

Definition env_disk_full : env :=
  {| generateId := "el-3"; Date_now := 3000;
     Math_random_1 := 1 # 3; Math_random_2 := 2 # 3;
     writeFile_error := Some "ENOSPC: no space left on device" |}.

Definition call (name : string) (e : env) (s : state) (args : list (string * value)) : outcome :=
  call_tool listed_types name e s (literal args).

(** An arrow of width 0 and height 5, no points *)
Definition flat_arrow : list (string * value) :=
  [("type", VStr "arrow"); ("x", VNum 0); ("y", VNum 0); ("width", VNum 0); ("height", VNum 5)].

(** An arrow with neither size nor points *)
Definition bare_arrow : list (string * value) :=
  [("type", VStr "arrow"); ("x", VNum 3); ("y", VNum 4)].

(** An arrow with two points *)
Definition two_points : list (Q * Q) := [(0%Q, 0%Q); (5%Q, 5%Q)].

Definition pointed_arrow : list (string * value) :=
  [("type", VStr "arrow"); ("x", VNum 0); ("y", VNum 0);
   ("points", VArr (point_obj <$> two_points))].

(** Rectangles at x = 10 and x = 50 *)
Definition rect_at (x : Q) : list (string * value) :=
  [("type", VStr "rectangle"); ("x", VNum x); ("y", VNum 0); ("width", VNum 20); ("height", VNum 20)].

(** A rectangle with opacity 1/8, and one that also carries the four
    system attributes *)
Definition faint_rect : list (string * value) :=
  [("type", VStr "rectangle"); ("x", VNum 0); ("y", VNum 0); ("opacity", VNum (1 # 8))].

Definition forged_rect : list (string * value) :=
  [("type", VStr "rectangle"); ("x", VNum 0); ("y", VNum 0);
   ("seed", VNum 7); ("version", VNum 7); ("versionNonce", VNum 7); ("updated", VNum 7)].

(** Patches for the element ["el-1"] *)
Definition move_patch : list (string * value) :=
  [("id", VStr "el-1"); ("x", VNum 99); ("opacity", VNum (12 # 10));
   ("createdAt", VNum 1); ("updatedAt", VNum 2)].

Definition seed_patch : list (string * value) :=
  [("id", VStr "el-1"); ("seed", VNum 42); ("version", VNum 7);
   ("versionNonce", VNum 7); ("updated", VNum 7)].

Definition font_patch : list (string * value) :=
  [("id", VStr "el-1"); ("fontFamily", VStr "helvetica")].

Definition one_rect : state := final (call "create_element" env0 initial_state (rect_at 10)).

Definition two_rects : state := final (call "create_element" env1 one_rect (rect_at 50)).

Definition one_arrow : state := final (call "create_element" env0 initial_state bare_arrow).

Definition one_pointed_arrow : state :=
  final (call "create_element" env0 initial_state pointed_arrow).

(** The rectangle ["el-1"], retyped to an arrow by an update: an arrow
    without points *)
Definition retype_patch : list (string * value) :=
  [("id", VStr "el-1"); ("type", VStr "arrow")].

Definition retyped : state := final (call "update_element" env1 one_rect retype_patch).

Definition align_left (ids : list string) : list (string * value) :=
  [("elementIds", VArr (VStr <$> ids)); ("alignment", VStr "left")].

End Sample.

(** ** The tool listing, and further vocabulary *)

(** The array [tools] that the handler of [ListToolsRequestSchema] returns:
    each tool's [name] and the [required] keys of its [inputSchema] (the
    descriptions and the property types are left out). *)
Definition tools : list (string * list string) :=
  [ ("create_element", ["type"; "x"; "y"]);
    ("update_element", ["id"]);
    ("delete_element", ["id"]);
    ("query_elements", []);
    ("get_resource", ["resource"]);
    ("group_elements", ["elementIds"]);
    ("ungroup_elements", ["groupId"]);
    ("align_elements", ["elementIds"; "alignment"]);
    ("distribute_elements", ["elementIds"; "direction"]);
    ("lock_elements", ["elementIds"]);
    ("unlock_elements", ["elementIds"]);
    ("save_scene", []) ].

(** What the [default] case of the [switch] answers. *)
Definition unknown_tool_response (name : string) : response :=
  {| content := Plain ("Error: Unknown tool: " +:+ name); isError := true |}.

(** What a call rejected by zod answers. *)
Definition zod_response : response := {| content := ZodIssues; isError := true |}.

(** A [Map] holds each key once, and every record is stored under its own
    [id]. *)
Definition keyed_store (m : list (string * obj)) : Prop :=
  NoDup (JsMap.keys m) /\ Forall (fun kv => get kv.2 "id" = VStr kv.1) m.

(** The scene fields that [sceneState] is initialized with. *)
Definition default_scene (sc : sceneState) : Prop :=
  theme sc = VStr "light" /\
  viewBackgroundColor sc = VStr "#ffffff" /\
  viewport sc = VObj (literal [("x", VNum 0); ("y", VNum 0); ("zoom", VNum 1)]) /\
  selectedElements sc = [].

(** The [appState] block of a document saved from the default scene. *)
Definition default_appState : value :=
  VObj (literal
    [ ("viewBackgroundColor", VStr "#ffffff");
      ("scrollX", VNum 0);
      ("scrollY", VNum 0);
      ("zoom", VObj (literal [("value", VNum 1)]));
      ("selectedElementIds", VObj (literal []));
      ("gridSize", VNull);
      ("zenModeEnabled", VBool false);
      ("editingGroupId", VNull);
      ("theme", VStr "light");
      ("currentItemStrokeColor", VStr "#000000");
      ("currentItemBackgroundColor", VStr "transparent");
      ("currentItemFillStyle", VStr "hachure");
      ("currentItemStrokeWidth", VNum 1);
      ("currentItemStrokeStyle", VStr "solid");
      ("currentItemRoughness", VNum 1);
      ("currentItemOpacity", VNum 100);
      ("currentItemFontFamily", VNum 1);
      ("currentItemFontSize", VNum 20);
      ("currentItemTextAlign", VStr "center");
      ("currentItemStartArrowhead", VNull);
      ("currentItemEndArrowhead", VStr "arrow") ]).

Definition document_field (d : value) (k : string) : value :=
  match d with VObj o => get o k | _ => VUndef end.

(** The record under key [k] after [lock_elements] ([b = true]) or
    [unlock_elements] ([b = false]) over [ids]. *)
Definition locked_as (b : bool) (ids : list string) (k : string) (el : obj) : obj :=
  if bool_decide (k ∈ ids) then <["locked" := VBool b]> el else el.

(** The keys of a patch that [update_element] does not copy as they are:
    it drops or overrides them, or rewrites their value. *)
Definition update_special : list string :=
  ["id"; "version"; "versionNonce"; "updated"; "createdAt"; "updatedAt"; "opacity"; "points"].

(** The array that a successful [query_elements] answers with. *)
Definition query_result (types : list string) (e : env) (s : state) (args : obj)
  : option (list value) :=
  match content (result (call_tool types "query_elements" e s args)) with
  | Json (VArr l) => Some l
  | _ => None
  end.

(** A value that [===] can never find equal to a parsed filter value: an
    array or an object. *)
Definition by_reference (v : value) : bool :=
  match v with VArr _ | VObj _ => true | _ => false end.

Module Sample2.

Definition locked_rects : state :=
  final (Sample.call "lock_elements" Sample.env0 Sample.two_rects
           [("elementIds", VArr [VStr "el-2"; VStr "nope"])]).

Definition grouped : state :=
  final (Sample.call "group_elements" Sample.env_disk_full Sample.two_rects
           [("elementIds", VArr [VStr "el-1"; VStr "ghost"])]).

End Sample2.

(** * Properties of the handlers *)

(** ** Objects *)

Section ObjectFacts.

Implicit Types (o : obj) (k : string) (v : value).

Lemma lookup_literal l k : literal l !! k = assoc k l.
Proof.
  unfold literal. induction l as [|[k' v] r IH]; simpl.
  - apply lookup_empty.
  - rewrite lookup_insert.
    destruct (String.eqb_spec k' k); case_decide; congruence.
Qed.

Lemma get_literal l k : get (literal l) k = default VUndef (assoc k l).
Proof. unfold get. by rewrite lookup_literal. Qed.

Lemma get_insert_eq o k v : get (<[k:=v]> o) k = v.
Proof. unfold get. by rewrite lookup_insert_eq. Qed.

Lemma get_insert_ne o k k' v : k ≠ k' -> get (<[k:=v]> o) k' = get o k'.
Proof. intros. unfold get. by rewrite lookup_insert_ne. Qed.

Lemma get_delete_ne o k k' : k ≠ k' -> get (delete k o) k' = get o k'.
Proof. intros. unfold get. by rewrite lookup_delete_ne. Qed.

Lemma get_strip_undefined o k : get (strip_undefined o) k = get o k.
Proof.
  unfold get, strip_undefined. rewrite map_lookup_filter.
  destruct (o !! k) as [v|]; [|done].
  destruct v; simpl; by rewrite ?option_guard_True, ?option_guard_False by done.
Qed.

Lemma lookup_strip_undefined o k v :
  strip_undefined o !! k = Some v -> v ≠ VUndef.
Proof.
  unfold strip_undefined. rewrite map_lookup_filter_Some. simpl.
  intros [_ H] ->. discriminate.
Qed.

Lemma get_union_l o1 o2 k : is_Some (o1 !! k) -> get (o1 ∪ o2) k = default VUndef (o1 !! k).
Proof. intros. unfold get. by rewrite lookup_union_l'. Qed.

Lemma get_union_r o1 o2 k : o1 !! k = None -> get (o1 ∪ o2) k = get o2 k.
Proof. intros. unfold get. by rewrite lookup_union_r. Qed.

End ObjectFacts.

(** ** The [Map] *)

Section MapFacts.

Context {V : Type}.
Implicit Types (m : list (string * V)) (k : string).

Lemma Map_get_set_eq m k v : JsMap.get k (JsMap.set k v m) = Some v.
Proof.
  induction m as [|[k' v'] r IH]; simpl.
  - by rewrite String.eqb_refl.
  - destruct (String.eqb k' k) eqn:E; simpl; by rewrite E.
Qed.

Lemma Map_get_set_ne m k k' v : k ≠ k' -> JsMap.get k' (JsMap.set k v m) = JsMap.get k' m.
Proof.
  intros Hne. induction m as [|[k0 v0] r IH]; simpl.
  - destruct (String.eqb_spec k k'); congruence.
  - destruct (String.eqb_spec k0 k) as [->|]; simpl.
    + destruct (String.eqb_spec k k'); congruence.
    + by rewrite IH.
Qed.

Lemma Map_has_false m k : JsMap.has k m = false <-> JsMap.get k m = None.
Proof. unfold JsMap.has. destruct (JsMap.get k m); split; congruence. Qed.

End MapFacts.

(** ** What the schemas let through *)

Section SchemaFacts.

Variable types : list string.

Lemma ElementSchema_scalars p a params :
  Zod.ElementSchema types p a = Some params -> Zod.scalars_ok types p a = true.
Proof. unfold Zod.ElementSchema. by destruct (Zod.scalars_ok types p a). Qed.

Lemma ElementSchema_points p a params :
  Zod.ElementSchema types p a = Some params ->
  Zod.points (get a "points") = Some (get params "points").
Proof.
  unfold Zod.ElementSchema. destruct (Zod.scalars_ok types p a); [|done].
  destruct (Zod.points (get a "points")) as [q|] eqn:Hq; [|done].
  intros [= <-]. case_decide as Hin.
  - by rewrite get_insert_eq.
  - rewrite <- Hq. apply eq_None_not_Some in Hin.
    unfold get in *. rewrite Hin in *. simpl in *. congruence.
Qed.

Lemma ElementSchema_get p a params k :
  Zod.ElementSchema types p a = Some params -> k ≠ "points" -> get params k = get a k.
Proof.
  unfold Zod.ElementSchema. destruct (Zod.scalars_ok types p a); [|done].
  destruct (Zod.points (get a "points")) as [q|]; [|done].
  intros [= <-] Hk. case_decide; [|done]. by rewrite get_insert_ne.
Qed.

Lemma ElementSchema_lookup p a params k :
  Zod.ElementSchema types p a = Some params -> k ≠ "points" -> params !! k = a !! k.
Proof.
  unfold Zod.ElementSchema. destruct (Zod.scalars_ok types p a); [|done].
  destruct (Zod.points (get a "points")) as [q|]; [|done].
  intros [= <-] Hk. case_decide; [|done]. by rewrite lookup_insert_ne.
Qed.

Lemma points_length l q :
  Zod.points (VArr l) = Some q -> exists l', q = VArr l' /\ length l' = length l.
Proof.
  simpl. destruct (mapM Zod.point l) as [l'|] eqn:E; [|done].
  intros [= <-]. exists l'. split; [done|].
  apply mapM_Some in E. symmetry. by eapply Forall2_length.
Qed.

Lemma points_fewer_than_2 v q :
  Zod.points v = Some q -> fewer_than_2_points q = fewer_than_2_points v.
Proof.
  destruct v; try done.
  - by intros [= <-].
  - intros H. apply points_length in H as (l' & -> & Hlen).
    unfold fewer_than_2_points. by rewrite Hlen.
Qed.

Lemma map_fontFamily_get args k :
  k ≠ "fontFamily" -> get (map_fontFamily args) k = get args k.
Proof.
  intros Hk. unfold map_fontFamily.
  destruct (get args "fontFamily"); try done.
  destruct (truthy _); [|done]. by rewrite get_insert_ne.
Qed.

Lemma map_fontFamily_lookup args k :
  k ≠ "fontFamily" -> map_fontFamily args !! k = args !! k.
Proof.
  intros Hk. unfold map_fontFamily.
  destruct (get args "fontFamily"); try done.
  destruct (truthy _); [|done]. by rewrite lookup_insert_ne.
Qed.

End SchemaFacts.

(** ** The record built by [create_element] *)

Section NewElement.

Variables (e : env) (params : obj).

Lemma literal_is_linear :
  is_linear (literal (element_literal e params)) = is_linear params.
Proof. unfold is_linear. by rewrite !get_literal. Qed.

Lemma literal_points :
  get (literal (element_literal e params)) "points" = get params "points".
Proof. by rewrite get_literal. Qed.

Lemma synthesize_points_other el k :
  k ≠ "points" -> k ≠ "startArrowhead" -> k ≠ "endArrowhead" ->
  get (synthesize_points el) k = get el k.
Proof.
  intros. unfold synthesize_points.
  destruct (_ && _); [|done]. destruct (eq_str _ _).
  - by rewrite !get_insert_ne.
  - by rewrite get_insert_ne.
Qed.

Lemma new_element_field k :
  k ≠ "points" -> k ≠ "startArrowhead" -> k ≠ "endArrowhead" ->
  get (new_element e params) k = default VUndef (assoc k (element_literal e params)).
Proof.
  intros. unfold new_element.
  by rewrite get_strip_undefined, synthesize_points_other, get_literal.
Qed.

Lemma new_element_points_synthesized :
  is_linear params = true ->
  fewer_than_2_points (get params "points") = true ->
  get (new_element e params) "points" =
  VArr [VArr [VNum 0; VNum 0];
        VArr [or_else (coalesce (get params "width") (VNum 10)) (VNum 10);
              or_else (coalesce (get params "height") (VNum 10)) (VNum 0)]].
Proof.
  intros Hlin Hfew. unfold new_element, synthesize_points.
  rewrite get_strip_undefined, literal_is_linear, literal_points, Hlin, Hfew.
  cbn [andb]. destruct (eq_str _ _).
  - rewrite !get_insert_ne, get_insert_eq by done.
    unfold default_points. by rewrite !get_literal.
  - rewrite get_insert_eq. unfold default_points. by rewrite !get_literal.
Qed.

Lemma new_element_points_supplied :
  is_linear params && fewer_than_2_points (get params "points") = false ->
  get (new_element e params) "points" = get params "points".
Proof.
  intros Hno. unfold new_element, synthesize_points.
  by rewrite get_strip_undefined, literal_is_linear, literal_points, Hno, get_literal.
Qed.

Lemma new_element_endArrowhead_synthesized :
  eq_str (get params "type") "arrow" = true ->
  fewer_than_2_points (get params "points") = true ->
  get (new_element e params) "startArrowhead" = VNull /\
  get (new_element e params) "endArrowhead" = VStr "arrow".
Proof.
  intros Harrow Hfew. unfold new_element, synthesize_points.
  rewrite !get_strip_undefined, literal_is_linear, literal_points, Hfew.
  unfold is_linear. rewrite Harrow. cbn [orb andb].
  rewrite get_insert_ne, get_literal by done.
  change (eq_str (default VUndef (assoc "type" (element_literal e params))) "arrow")
    with (eq_str (get params "type") "arrow").
  rewrite Harrow, get_insert_eq, get_insert_ne, get_insert_eq by done.
  rewrite !get_insert_ne, !get_literal by done. done.
Qed.

Lemma new_element_arrowheads_supplied_points :
  is_linear params && fewer_than_2_points (get params "points") = false ->
  get (new_element e params) "startArrowhead" = VNull /\
  get (new_element e params) "endArrowhead" = VNull.
Proof.
  intros Hno. unfold new_element, synthesize_points.
  by rewrite !get_strip_undefined, literal_is_linear, literal_points, Hno, !get_literal.
Qed.

End NewElement.

(** ** [create_element] *)

Section Create.

Variable types : list string.
Variables (e : env) (s : state) (args params : obj).
Hypothesis Hparse : Zod.ElementSchema types false (map_fontFamily args) = Some params.

Lemma create_element_outcome :
  call_tool types "create_element" e s args =
  {| final := with_elements s (JsMap.set (generateId e) (new_element e params) (elements s));
     written := [];
     result := {| content := Json (VObj (literal [("id", get (new_element e params) "id");
                                                  ("type", get (new_element e params) "type");
                                                  ("created", VBool true)]));
                  isError := false |} |}.
Proof.
  unfold call_tool.
  change (dispatch types "create_element" e s args) with (create_element types e s args).
  unfold create_element. by rewrite Hparse.
Qed.

Lemma created_new_element : created types e s args = Some (new_element e params).
Proof. unfold created. rewrite create_element_outcome. apply Map_get_set_eq. Qed.

Lemma params_get k : k ≠ "points" -> k ≠ "fontFamily" -> get params k = get args k.
Proof.
  intros. rewrite (ElementSchema_get _ _ _ _ _ Hparse) by done.
  by apply map_fontFamily_get.
Qed.

Lemma params_points : Zod.points (get args "points") = Some (get params "points").
Proof.
  rewrite <- (map_fontFamily_get args "points") by done.
  by eapply ElementSchema_points.
Qed.

Lemma params_is_linear : is_linear params = is_linear args.
Proof. unfold is_linear. by rewrite params_get. Qed.

Lemma params_fewer_than_2 :
  fewer_than_2_points (get params "points") = fewer_than_2_points (get args "points").
Proof. apply points_fewer_than_2, params_points. Qed.

Lemma supplied_fewer_than_2 :
  fewer_than_2_points (get args "points") = (supplied_points args <? 2)%nat.
Proof.
  pose proof params_points as H. unfold supplied_points.
  destruct (get args "points"); try done.
Qed.

End Create.

(** *** Synthesized points *)

Lemma or_else_width w :
  exists px, or_else (VNum w) (VNum 10) = VNum px /\ px == (if Qeq_bool w 0 then 10 else w).
Proof.
  unfold or_else, truthy. destruct (Qeq_bool w 0); simpl; eexists; split; reflexivity.
Qed.

Lemma or_else_height h :
  exists py, or_else (VNum h) (VNum 0) = VNum py /\ py == h.
Proof.
  unfold or_else, truthy. destruct (Qeq_bool h 0) eqn:E; simpl; eexists; split;
    try reflexivity.
  symmetry. by apply Qeq_bool_eq.
Qed.

(** C2, as the code has it: an [arrow] or [line] created with fewer than two
    points is stored with exactly two points, [[0, 0]] and [[px, py]], where
    [py] is the stored (post-default) height and [px] is the stored
    (post-default) width, except that a width of 0 gives [px = 10]. *)
Theorem create_synthesizes_two_points
  (types : list string) (e : env) (s : state) (args params : obj) (w h : Q) :
  Zod.ElementSchema types false (map_fontFamily args) = Some params ->
  is_linear args = true ->
  (supplied_points args < 2)%nat ->
  coalesce (get args "width") (VNum 10) = VNum w ->
  coalesce (get args "height") (VNum 10) = VNum h ->
  exists el px py,
    created types e s args = Some el /\
    get el "width" = VNum w /\ get el "height" = VNum h /\
    get el "points" = VArr [VArr [VNum 0; VNum 0]; VArr [VNum px; VNum py]] /\
    px == (if Qeq_bool w 0 then 10 else w) /\ py == h.
Proof.
  intros Hparse Hlin Hfew Hw Hh.
  assert (Hw' : coalesce (get params "width") (VNum 10) = VNum w)
    by (by rewrite (params_get _ _ _ Hparse)).
  assert (Hh' : coalesce (get params "height") (VNum 10) = VNum h)
    by (by rewrite (params_get _ _ _ Hparse)).
  destruct (or_else_width w) as (px & Hpx & Hpxw).
  destruct (or_else_height h) as (py & Hpy & Hpyh).
  exists (new_element e params), px, py. split; [by apply created_new_element|].
  split; [by rewrite new_element_field|].
  split; [by rewrite new_element_field|].
  split; [|done].
  rewrite new_element_points_synthesized, Hw', Hh', Hpx, Hpy; [done| |].
  - by rewrite (params_is_linear _ _ _ Hparse).
  - rewrite (params_fewer_than_2 _ _ _ Hparse), (supplied_fewer_than_2 _ _ _ Hparse).
    by apply Nat.ltb_lt.
Qed.

Lemma create_synthesizes_two_points_witness :
  exists el px py,
    created listed_types Sample.env0 initial_state (literal Sample.flat_arrow) = Some el /\
    get el "width" = VNum 0 /\ get el "height" = VNum 5 /\
    get el "points" = VArr [VArr [VNum 0; VNum 0]; VArr [VNum px; VNum py]] /\
    px == (if Qeq_bool 0 0 then 10 else 0) /\ py == 5.
Proof.
  apply (create_synthesizes_two_points listed_types Sample.env0 initial_state
           (literal Sample.flat_arrow) (literal Sample.flat_arrow) 0 5).
  - reflexivity.
  - reflexivity.
  - vm_compute. lia.
  - reflexivity.
  - reflexivity.
Defined.

(** C2 as stated fails: an arrow created with width 0 and height 5 is stored
    with second point (10, 5), not (width, height) = (0, 5). *)
Lemma create_zero_width_arrow_second_point :
  exists el,
    created listed_types Sample.env0 initial_state (literal Sample.flat_arrow) = Some el /\
    get el "width" = VNum 0 /\ get el "height" = VNum 5 /\
    get el "points" = VArr [VArr [VNum 0; VNum 0]; VArr [VNum 10; VNum 5]] /\
    get el "points" ≠ VArr [VArr [VNum 0; VNum 0]; VArr [get el "width"; get el "height"]].
Proof.
  exists (new_element Sample.env0 (literal Sample.flat_arrow)).
  repeat split; try (vm_compute; reflexivity).
  vm_compute. intros [=].
Qed.

(** *** Arrowheads *)

Lemma create_arrowheads_synthesized
  (types : list string) (e : env) (s : state) (args params : obj) :
  Zod.ElementSchema types false (map_fontFamily args) = Some params ->
  get args "type" = VStr "arrow" ->
  (supplied_points args < 2)%nat ->
  exists el, created types e s args = Some el /\
    get el "startArrowhead" = VNull /\ get el "endArrowhead" = VStr "arrow".
Proof.
  intros Hparse Harrow Hfew. exists (new_element e params).
  split; [by apply created_new_element|].
  apply new_element_endArrowhead_synthesized.
  - by rewrite (params_get _ _ _ Hparse), Harrow.
  - rewrite (params_fewer_than_2 _ _ _ Hparse), (supplied_fewer_than_2 _ _ _ Hparse).
    by apply Nat.ltb_lt.
Qed.

Lemma create_arrowheads_supplied_points
  (types : list string) (e : env) (s : state) (args params : obj) :
  Zod.ElementSchema types false (map_fontFamily args) = Some params ->
  (2 <= supplied_points args)%nat ->
  exists el, created types e s args = Some el /\
    get el "startArrowhead" = VNull /\ get el "endArrowhead" = VNull.
Proof.
  intros Hparse Hfew. exists (new_element e params).
  split; [by apply created_new_element|].
  apply new_element_arrowheads_supplied_points.
  rewrite (params_fewer_than_2 _ _ _ Hparse), (supplied_fewer_than_2 _ _ _ Hparse).
  apply andb_false_intro2. by apply Nat.ltb_ge.
Qed.

(** The literal never reads the caller's arrowhead fields: a supplied
    [endArrowhead] is replaced by ["arrow"] when points are synthesized. *)
Example create_arrow_ignores_supplied_endArrowhead :
  created listed_types Sample.env0 initial_state
    (literal [("type", VStr "arrow"); ("x", VNum 0); ("y", VNum 0);
              ("endArrowhead", VStr "dot")]) ≫= (fun el => el !! "endArrowhead")
  = Some (VStr "arrow").
Proof. vm_compute. reflexivity. Qed.

(** C3 at its failing input: an arrow created with two points and no
    arrowhead fields is stored with [endArrowhead] null, where the claim has
    ["arrow"]. *)
Theorem create_arrow_with_points_endArrowhead_null :
  exists el,
    created listed_types Sample.env0 initial_state (literal Sample.pointed_arrow) = Some el /\
    get el "type" = VStr "arrow" /\
    get el "points" = VArr (point_obj <$> Sample.two_points) /\
    get el "startArrowhead" = VNull /\
    get el "endArrowhead" = VNull /\
    get el "endArrowhead" ≠ VStr "arrow".
Proof.
  exists (new_element Sample.env0 (literal Sample.pointed_arrow)).
  repeat split; try (vm_compute; reflexivity).
  vm_compute. intros [=].
Qed.

(** ** [update_element] *)

Lemma scalars_ok_fontFamily types p a :
  Zod.scalars_ok types p a = true -> Zod.optional is_number (get a "fontFamily") = true.
Proof. unfold Zod.scalars_ok. rewrite !andb_true_iff. tauto. Qed.

Lemma scalars_ok_opacity types p a :
  Zod.scalars_ok types p a = true -> Zod.optional is_number (get a "opacity") = true.
Proof. unfold Zod.scalars_ok. rewrite !andb_true_iff. tauto. Qed.

Section Merged.

Variables (e : env) (existing updates : obj).

Lemma merged_version :
  get (merged_element e existing updates) "version" = or0_plus1 (get existing "version").
Proof.
  unfold merged_element.
  by rewrite !get_delete_ne, !get_insert_ne, get_insert_eq by done.
Qed.

Lemma merged_versionNonce :
  get (merged_element e existing updates) "versionNonce" = random31 (Math_random_1 e).
Proof.
  unfold merged_element.
  by rewrite !get_delete_ne, !get_insert_ne, get_insert_eq by done.
Qed.

Lemma merged_updated :
  get (merged_element e existing updates) "updated" = num (Date_now e).
Proof.
  unfold merged_element. by rewrite !get_delete_ne, get_insert_eq by done.
Qed.

Lemma merged_createdAt : merged_element e existing updates !! "createdAt" = None.
Proof.
  unfold merged_element. by rewrite lookup_delete_ne, lookup_delete_eq by done.
Qed.

Lemma merged_updatedAt : merged_element e existing updates !! "updatedAt" = None.
Proof. unfold merged_element. by rewrite lookup_delete_eq. Qed.

Lemma merged_other k :
  k ≠ "version" -> k ≠ "versionNonce" -> k ≠ "updated" ->
  k ≠ "createdAt" -> k ≠ "updatedAt" ->
  merged_element e existing updates !! k = (updates ∪ existing) !! k.
Proof.
  intros. unfold merged_element.
  by rewrite !lookup_delete_ne, !lookup_insert_ne by done.
Qed.

End Merged.

Lemma update_opacity_lookup updates k :
  k ≠ "opacity" -> update_opacity updates !! k = updates !! k.
Proof.
  intros. unfold update_opacity. destruct (is_undefined _); [done|].
  by rewrite lookup_insert_ne.
Qed.

Lemma update_opacity_number updates v :
  get updates "opacity" = VNum v ->
  get (update_opacity updates) "opacity" = VNum (clamp100 v).
Proof.
  intros H. unfold update_opacity. rewrite H. cbn [is_undefined rescale_opacity].
  apply get_insert_eq.
Qed.

Section Update.

Variable types : list string.
Variables (e : env) (s : state) (args raw : obj) (id : string).
Hypothesis Hparse : Zod.UpdateSchema types args = Some raw.
Hypothesis Hid : get args "id" = VStr id.

Lemma UpdateSchema_ElementSchema : Zod.ElementSchema types true args = Some raw.
Proof. revert Hparse. unfold Zod.UpdateSchema. by destruct (is_string _). Qed.

Lemma raw_lookup k : k ≠ "points" -> raw !! k = args !! k.
Proof. intros. by apply (ElementSchema_lookup _ _ _ _ _ UpdateSchema_ElementSchema). Qed.

Lemma raw_get k : k ≠ "points" -> get raw k = get args k.
Proof. intros. unfold get. by rewrite raw_lookup. Qed.

Lemma update_fontFamily_unused existing :
  update_fontFamily existing (delete "id" raw) = delete "id" raw.
Proof.
  pose proof (scalars_ok_fontFamily _ _ _
                (ElementSchema_scalars _ _ _ _ UpdateSchema_ElementSchema)) as H.
  unfold update_fontFamily. rewrite get_delete_ne, raw_get by done.
  by destruct (get args "fontFamily").
Qed.

(** The patch that reaches the merge *)
Lemma patch_lookup k :
  k ≠ "id" -> k ≠ "opacity" -> k ≠ "points" ->
  update_opacity (delete "id" raw) !! k = args !! k.
Proof.
  intros. by rewrite update_opacity_lookup, lookup_delete_ne, raw_lookup.
Qed.

Lemma patch_id : update_opacity (delete "id" raw) !! "id" = None.
Proof. by rewrite update_opacity_lookup, lookup_delete_eq. Qed.

Lemma update_element_missing_id :
  id = "" ->
  call_tool types "update_element" e s args = caught s (Error "Element ID is required").
Proof.
  intros ->. unfold call_tool.
  change (dispatch types "update_element" e s args) with (update_element types e s args).
  unfold update_element. by rewrite Hparse, raw_get, Hid.
Qed.

Lemma update_element_not_found :
  id ≠ "" -> JsMap.get id (elements s) = None ->
  call_tool types "update_element" e s args = caught s (not_found id).
Proof.
  intros Hne Hnone. unfold call_tool.
  change (dispatch types "update_element" e s args) with (update_element types e s args).
  unfold update_element. rewrite Hparse, raw_get, Hid by done.
  destruct (String.eqb_spec id ""); [done|]. by rewrite Hnone.
Qed.

Lemma update_element_outcome existing :
  id ≠ "" -> JsMap.get id (elements s) = Some existing ->
  let new := merged_element e existing (update_opacity (delete "id" raw)) in
  call_tool types "update_element" e s args =
  {| final := with_elements s (JsMap.set id new (elements s));
     written := [];
     result := {| content := Json (VObj (literal [("id", get new "id");
                                                  ("updated", VBool true);
                                                  ("version", get new "version")]));
                  isError := false |} |}.
Proof.
  intros Hne Hex new. unfold call_tool.
  change (dispatch types "update_element" e s args) with (update_element types e s args).
  unfold update_element. rewrite Hparse, raw_get, Hid by done.
  destruct (String.eqb_spec id ""); [done|].
  by rewrite Hex, update_fontFamily_unused.
Qed.

Lemma updated_merged existing :
  id ≠ "" -> JsMap.get id (elements s) = Some existing ->
  updated types e s args id =
  Some (merged_element e existing (update_opacity (delete "id" raw))).
Proof.
  intros Hne Hex. unfold updated. rewrite (update_element_outcome existing) by done.
  apply Map_get_set_eq.
Qed.

End Update.

Lemma or0_plus1_number v :
  exists v', or0_plus1 (VNum v) = VNum v' /\ v' == v + 1.
Proof.
  unfold or0_plus1, or_else, truthy.
  destruct (Qeq_bool v 0) eqn:E; cbn [negb]; eexists; (split; [reflexivity|]).
  - rewrite Qred_correct. apply Qeq_bool_eq in E. by rewrite E.
  - apply Qred_correct.
Qed.

Lemma merged_id e existing updates :
  updates !! "id" = None ->
  get (merged_element e existing updates) "id" = get existing "id".
Proof.
  intros H. unfold get at 1. rewrite merged_other by done.
  by rewrite lookup_union_r.
Qed.

(** C4: an update of an identifier that is in the repository keeps the
    record's [id], stores the prior version plus 1, a [versionNonce] drawn
    in this call and the current time as [updated], leaves no [createdAt] or
    [updatedAt] key, and answers with the new version. *)
Theorem update_element_versioning
  (types : list string) (e : env) (s : state) (args raw : obj) (id : string)
  (existing : obj) (v : Q) :
  Zod.UpdateSchema types args = Some raw ->
  get args "id" = VStr id ->
  id ≠ "" ->
  JsMap.get id (elements s) = Some existing ->
  get existing "version" = VNum v ->
  exists new v',
    updated types e s args id = Some new /\
    get new "id" = get existing "id" /\
    get new "version" = VNum v' /\ v' == v + 1 /\
    get new "versionNonce" = random31 (Math_random_1 e) /\
    get new "updated" = num (Date_now e) /\
    new !! "createdAt" = None /\ new !! "updatedAt" = None /\
    result (call_tool types "update_element" e s args) =
      {| content := Json (VObj (literal [("id", get existing "id");
                                         ("updated", VBool true);
                                         ("version", VNum v')]));
         isError := false |}.
Proof.
  intros Hparse Hid Hne Hex Hv.
  destruct (or0_plus1_number v) as (v' & Hv' & Hsucc).
  set (new := merged_element e existing (update_opacity (delete "id" raw))).
  assert (Hnid : get new "id" = get existing "id")
    by (apply merged_id; eapply patch_id).
  assert (Hnv : get new "version" = VNum v')
    by (unfold new; by rewrite merged_version, Hv).
  exists new, v'.
  split; [by eapply updated_merged|].
  repeat split; try done.
  - apply merged_versionNonce.
  - apply merged_updated.
  - apply merged_createdAt.
  - apply merged_updatedAt.
  - rewrite (update_element_outcome _ _ _ _ _ _ Hparse Hid existing Hne Hex).
    cbn [result]. fold new. by rewrite Hnid, Hnv.
Qed.

Lemma update_element_versioning_witness :
  exists new v',
    updated listed_types Sample.env1 Sample.one_rect (literal Sample.move_patch) "el-1"
      = Some new /\
    get new "id" = VStr "el-1" /\
    get new "version" = VNum v' /\ v' == 1 + 1 /\
    get new "versionNonce" = random31 (3 # 4) /\
    get new "updated" = num 2000 /\
    new !! "createdAt" = None /\ new !! "updatedAt" = None /\
    result (call_tool listed_types "update_element" Sample.env1 Sample.one_rect
              (literal Sample.move_patch)) =
      {| content := Json (VObj (literal [("id", VStr "el-1");
                                         ("updated", VBool true);
                                         ("version", VNum v')]));
         isError := false |}.
Proof.
  eapply (update_element_versioning listed_types Sample.env1 Sample.one_rect
            (literal Sample.move_patch) (literal Sample.move_patch) "el-1"
            (new_element Sample.env0 (literal (Sample.rect_at 10))) 1).
  - reflexivity.
  - reflexivity.
  - discriminate.
  - reflexivity.
  - reflexivity.
Defined.

(** ** Opacity *)

Lemma clamp100_spec v :
  (clamp100 v == Qmax 0 (Qmin 100 (v * 100)) /\ 0 <= clamp100 v <= 100)%Q.
Proof.
  unfold clamp100. rewrite Qred_correct. split; [reflexivity|]. split.
  - apply Q.le_max_l.
  - apply Q.max_lub; [done|]. apply Q.le_min_l.
Qed.

Lemma stored_opacity_number v : stored_opacity (VNum v) (VNum (clamp100 v)).
Proof. exists (clamp100 v). split; [done|]. apply clamp100_spec. Qed.

Lemma create_opacity
  (types : list string) (e : env) (s : state) (args params : obj) :
  Zod.ElementSchema types false (map_fontFamily args) = Some params ->
  exists el, created types e s args = Some el /\
             stored_opacity (get args "opacity") (get el "opacity").
Proof.
  intros Hparse. exists (new_element e params).
  split; [by apply created_new_element|].
  rewrite new_element_field by done. cbn [assoc element_literal String.eqb Ascii.eqb Bool.eqb default].
  pose proof (scalars_ok_opacity _ _ _ (ElementSchema_scalars _ _ _ _ Hparse)) as Hop.
  rewrite map_fontFamily_get in Hop by done.
  rewrite (params_get _ _ _ Hparse) by done.
  destruct (get args "opacity"); try done.
  apply stored_opacity_number.
Qed.

Lemma update_opacity_stored
  (types : list string) (e : env) (s : state) (args raw : obj) (id : string)
  (existing : obj) (v : Q) :
  Zod.UpdateSchema types args = Some raw ->
  get args "id" = VStr id ->
  id ≠ "" ->
  JsMap.get id (elements s) = Some existing ->
  get args "opacity" = VNum v ->
  exists new, updated types e s args id = Some new /\
              get new "opacity" = VNum (clamp100 v).
Proof.
  intros Hparse Hid Hne Hex Hv.
  eexists. split; [by eapply updated_merged|].
  assert (Hraw : get (delete "id" raw) "opacity" = VNum v)
    by (by rewrite get_delete_ne, (raw_get _ _ _ Hparse)).
  unfold get at 1. rewrite merged_other by done.
  unfold update_opacity. rewrite Hraw. cbn [is_undefined rescale_opacity].
  by rewrite lookup_union_l', lookup_insert_eq by (by rewrite lookup_insert_eq).
Qed.

(** C7, as the code has it: on create a supplied opacity [v] is stored as
    [v * 100] clamped to the closed interval from 0 to 100, an omitted one
    as exactly 100; an opacity in an update patch is rescaled and clamped
    the same way.  The stored value is a number between 0 and 100; nothing
    rounds it to an integer. *)
Theorem opacity_rescaled_and_clamped
  (types : list string)
  (e : env) (s : state) (args params : obj)
  (e' : env) (s' : state) (patch raw : obj) (id : string) (existing : obj) (v : Q) :
  Zod.ElementSchema types false (map_fontFamily args) = Some params ->
  Zod.UpdateSchema types patch = Some raw ->
  get patch "id" = VStr id ->
  id ≠ "" ->
  JsMap.get id (elements s') = Some existing ->
  get patch "opacity" = VNum v ->
  (exists el, created types e s args = Some el /\
              stored_opacity (get args "opacity") (get el "opacity")) /\
  (exists new, updated types e' s' patch id = Some new /\
               stored_opacity (VNum v) (get new "opacity")).
Proof.
  intros Hparse Hraw Hid Hne Hex Hv. split.
  - by eapply create_opacity.
  - destruct (update_opacity_stored types e' s' patch raw id existing v)
      as (new & Hnew & Hop); try done.
    exists new. split; [done|]. rewrite Hop. apply stored_opacity_number.
Qed.

Lemma opacity_rescaled_and_clamped_witness :
  (exists el, created listed_types Sample.env0 initial_state (literal Sample.faint_rect)
                = Some el /\
              stored_opacity (VNum (1 # 8)) (get el "opacity")) /\
  (exists new, updated listed_types Sample.env1 Sample.one_rect
                 (literal Sample.move_patch) "el-1" = Some new /\
               stored_opacity (VNum (12 # 10)) (get new "opacity")).
Proof.
  apply (opacity_rescaled_and_clamped listed_types
           Sample.env0 initial_state (literal Sample.faint_rect) (literal Sample.faint_rect)
           Sample.env1 Sample.one_rect (literal Sample.move_patch)
           (literal Sample.move_patch) "el-1"
           (new_element Sample.env0 (literal (Sample.rect_at 10))) (12 # 10)).
  - reflexivity.
  - reflexivity.
  - reflexivity.
  - discriminate.
  - reflexivity.
  - reflexivity.
Defined.

(** The examples of the spec: 0.5 is stored as 50, 1.2 as 100, nothing as 100. *)
Example opacity_half :
  created listed_types Sample.env0 initial_state
    (literal [("type", VStr "rectangle"); ("x", VNum 0); ("y", VNum 0);
              ("opacity", VNum (5 # 10))]) ≫= (fun el => el !! "opacity")
  = Some (VNum 50).
Proof. vm_compute. reflexivity. Qed.

Example opacity_above_one :
  created listed_types Sample.env0 initial_state
    (literal [("type", VStr "rectangle"); ("x", VNum 0); ("y", VNum 0);
              ("opacity", VNum (12 # 10))]) ≫= (fun el => el !! "opacity")
  = Some (VNum 100).
Proof. vm_compute. reflexivity. Qed.

Example opacity_omitted :
  created listed_types Sample.env0 initial_state (literal (Sample.rect_at 10))
    ≫= (fun el => el !! "opacity")
  = Some (VNum 100).
Proof. vm_compute. reflexivity. Qed.

(** C7 as stated fails: an opacity of 1/8 is stored as 25/2, which is not an
    integer of the scale from 0 to 100. *)
Lemma create_opacity_not_integer :
  exists el,
    created listed_types Sample.env0 initial_state (literal Sample.faint_rect) = Some el /\
    get el "opacity" = VNum (25 # 2) /\
    ~ integer_0_100 (get el "opacity").
Proof.
  exists (new_element Sample.env0 (literal Sample.faint_rect)).
  split; [reflexivity|].
  assert (H : get (new_element Sample.env0 (literal Sample.faint_rect)) "opacity"
              = VNum (25 # 2)) by (vm_compute; reflexivity).
  split; [done|]. rewrite H. intros (q & n & Hq & Hn & _).
  injection Hq as <-. unfold Qeq, inject_Z in Hn. cbn in Hn. lia.
Qed.

(** ** System-assigned attributes *)

(** C9, as the code has it: [create_element] stores a seed and a
    versionNonce drawn in the call, version 1 and the current time, whatever
    the argument bag carries; [update_element] stores the successor of the
    prior version, a versionNonce drawn in the call and the current time,
    whatever the patch carries; it keeps the stored seed when the patch has
    no [seed] key, and stores the patch's seed when it has one. *)
Theorem system_attributes
  (types : list string)
  (e : env) (s : state) (args params : obj)
  (e' : env) (s' : state) (patch raw : obj) (id : string) (existing : obj) :
  Zod.ElementSchema types false (map_fontFamily args) = Some params ->
  Zod.UpdateSchema types patch = Some raw ->
  get patch "id" = VStr id ->
  id ≠ "" ->
  JsMap.get id (elements s') = Some existing ->
  (exists el, created types e s args = Some el /\
     get el "seed" = random31 (Math_random_1 e) /\
     get el "version" = VNum 1 /\
     get el "versionNonce" = random31 (Math_random_2 e) /\
     get el "updated" = num (Date_now e)) /\
  (exists new, updated types e' s' patch id = Some new /\
     get new "version" = or0_plus1 (get existing "version") /\
     get new "versionNonce" = random31 (Math_random_1 e') /\
     get new "updated" = num (Date_now e') /\
     get new "seed" = match patch !! "seed" with
                      | Some v => v
                      | None => get existing "seed"
                      end).
Proof.
  intros Hparse Hraw Hid Hne Hex. split.
  - exists (new_element e params). split; [by apply created_new_element|].
    by rewrite !new_element_field.
  - eexists. split; [by eapply updated_merged|].
    split; [apply merged_version|]. split; [apply merged_versionNonce|].
    split; [apply merged_updated|].
    unfold get at 1. rewrite merged_other by done.
    rewrite lookup_union, (patch_lookup _ _ _ Hraw) by done.
    unfold get. by destruct (patch !! "seed"), (existing !! "seed").
Qed.

Lemma system_attributes_witness :
  (exists el, created listed_types Sample.env0 initial_state (literal Sample.forged_rect)
                = Some el /\
     get el "seed" = random31 (1 # 2) /\
     get el "version" = VNum 1 /\
     get el "versionNonce" = random31 (1 # 4) /\
     get el "updated" = num 1000) /\
  (exists new, updated listed_types Sample.env1 Sample.one_rect
                 (literal Sample.seed_patch) "el-1" = Some new /\
     get new "version" = or0_plus1 (VNum 1) /\
     get new "versionNonce" = random31 (3 # 4) /\
     get new "updated" = num 2000 /\
     get new "seed" = VNum 42).
Proof.
  apply (system_attributes listed_types
           Sample.env0 initial_state (literal Sample.forged_rect) (literal Sample.forged_rect)
           Sample.env1 Sample.one_rect (literal Sample.seed_patch)
           (literal Sample.seed_patch) "el-1"
           (new_element Sample.env0 (literal (Sample.rect_at 10)))).
  - reflexivity.
  - reflexivity.
  - reflexivity.
  - discriminate.
  - reflexivity.
Defined.

(** C9 as stated fails: an update whose patch carries [seed: 42] replaces
    the seed that was generated at creation. *)
Lemma update_stores_supplied_seed :
  exists old new,
    JsMap.get "el-1" (elements Sample.one_rect) = Some old /\
    updated listed_types Sample.env1 Sample.one_rect (literal Sample.seed_patch) "el-1"
      = Some new /\
    get old "seed" = VNum 1073741824 /\
    get new "seed" = VNum 42 /\
    get new "seed" ≠ get old "seed".
Proof.
  exists (new_element Sample.env0 (literal (Sample.rect_at 10))).
  exists (merged_element Sample.env1
            (new_element Sample.env0 (literal (Sample.rect_at 10)))
            (update_opacity (delete "id" (literal Sample.seed_patch)))).
  split; [reflexivity|]. split; [reflexivity|].
  split; [vm_compute; reflexivity|]. split; [vm_compute; reflexivity|].
  vm_compute. intros [=].
Qed.

(** ** Unknown identifiers *)

Lemma delete_element_not_found types e s args id :
  get args "id" = VStr id ->
  JsMap.get id (elements s) = None ->
  call_tool types "delete_element" e s args = caught s (not_found id).
Proof.
  intros Hid Hnone. unfold call_tool.
  change (dispatch types "delete_element" e s args) with (delete_element s args).
  unfold delete_element, Zod.string_field. rewrite Hid.
  apply Map_has_false in Hnone. by rewrite Hnone.
Qed.

Lemma caught_not_found s id : result (caught s (not_found id)) = not_found_response id.
Proof. reflexivity. Qed.

(** A failed update leaves the state as it was, whatever the arguments. *)
Lemma update_element_failure_unchanged types e s args :
  isError (result (call_tool types "update_element" e s args)) = true ->
  final (call_tool types "update_element" e s args) = s.
Proof.
  unfold call_tool.
  change (dispatch types "update_element" e s args) with (update_element types e s args).
  unfold update_element.
  destruct (Zod.UpdateSchema types args) as [raw|]; [|done].
  destruct (get raw "id"); try done.
  destruct (String.eqb _ _); [done|].
  by destruct (JsMap.get _ _).
Qed.

Lemma delete_element_failure_unchanged types e s args :
  isError (result (call_tool types "delete_element" e s args)) = true ->
  final (call_tool types "delete_element" e s args) = s.
Proof.
  unfold call_tool.
  change (dispatch types "delete_element" e s args) with (delete_element s args).
  unfold delete_element.
  destruct (Zod.string_field "id" args); [|done].
  by destruct (negb _).
Qed.

(** C5, as the code has it: for an identifier that is not in the
    repository, [delete_element] fails with the not-found message and
    [update_element] fails too, with the not-found message when the
    identifier is not the empty string and with "Element ID is required"
    when it is; neither changes the state nor writes anything. *)
Theorem unknown_id_fails_and_changes_nothing
  (types : list string) (e : env) (s : state) (patch raw args : obj) (id : string) :
  JsMap.get id (elements s) = None ->
  Zod.UpdateSchema types patch = Some raw ->
  get patch "id" = VStr id ->
  get args "id" = VStr id ->
  let u := call_tool types "update_element" e s patch in
  let d := call_tool types "delete_element" e s args in
  (final u = s /\ written u = [] /\ isError (result u) = true /\
   (id ≠ "" -> result u = not_found_response id) /\
   (id = "" -> result u = {| content := Plain "Error: Element ID is required";
                             isError := true |})) /\
  (final d = s /\ written d = [] /\ result d = not_found_response id).
Proof.
  intros Hnone Hraw Hpid Haid u d. split.
  - subst u. destruct (decide (id = "")) as [Heq|Hne].
    + rewrite (update_element_missing_id _ _ _ _ _ _ Hraw Hpid Heq).
      repeat split; done.
    + rewrite (update_element_not_found _ _ _ _ _ _ Hraw Hpid Hne Hnone).
      repeat split; done.
  - subst d. rewrite (delete_element_not_found _ _ _ _ _ Haid Hnone).
    repeat split; done.
Qed.

Lemma unknown_id_fails_and_changes_nothing_witness :
  let u := call_tool listed_types "update_element" Sample.env1 Sample.one_rect
             (literal [("id", VStr "nope"); ("x", VNum 1)]) in
  let d := call_tool listed_types "delete_element" Sample.env1 Sample.one_rect
             (literal [("id", VStr "nope")]) in
  (final u = Sample.one_rect /\ written u = [] /\ isError (result u) = true /\
   ("nope" ≠ "" -> result u = not_found_response "nope") /\
   ("nope" = "" -> result u = {| content := Plain "Error: Element ID is required";
                                 isError := true |})) /\
  (final d = Sample.one_rect /\ written d = [] /\ result d = not_found_response "nope").
Proof.
  apply (unknown_id_fails_and_changes_nothing listed_types Sample.env1 Sample.one_rect
           (literal [("id", VStr "nope"); ("x", VNum 1)])
           (literal [("id", VStr "nope"); ("x", VNum 1)])
           (literal [("id", VStr "nope")]) "nope").
  - reflexivity.
  - reflexivity.
  - reflexivity.
  - reflexivity.
Defined.

(** C5 as stated fails: the empty string is in no repository, yet an update
    on it answers "Element ID is required", not the not-found message. *)
Lemma update_empty_id_is_not_not_found :
  JsMap.get "" (elements initial_state) = None /\
  result (call_tool listed_types "update_element" Sample.env0 initial_state
            (literal [("id", VStr "")])) =
    {| content := Plain "Error: Element ID is required"; isError := true |} /\
  result (call_tool listed_types "update_element" Sample.env0 initial_state
            (literal [("id", VStr "")])) ≠ not_found_response "".
Proof.
  split; [reflexivity|]. split; [vm_compute; reflexivity|].
  vm_compute. intros [=].
Qed.

(** ** [save_scene] *)

Lemma values_fmap (f : obj -> obj) (m : list (string * obj)) :
  JsMap.values (prod_map id f <$> m) = f <$> JsMap.values m.
Proof.
  unfold JsMap.values. induction m as [|[k v] r IH]; [done|].
  cbn. by f_equal.
Qed.

Lemma get_fmap (f : obj -> obj) (m : list (string * obj)) k :
  JsMap.get k (prod_map id f <$> m) = f <$> JsMap.get k m.
Proof.
  induction m as [|[k' v] r IH]; [done|].
  cbn. by destruct (String.eqb k' k).
Qed.

Lemma document_elements_sceneData sc els :
  document_elements (sceneData sc els) = VObj <$> els.
Proof. unfold document_elements, sceneData. by rewrite get_literal. Qed.

Lemma filename_or_default_given f :
  f ≠ "" -> filename_or_default (VStr f) = f.
Proof.
  intros Hf. unfold filename_or_default, or_else, truthy.
  by destruct (String.eqb_spec f "").
Qed.

Section SaveScene.

Variable types : list string.
Variables (e : env) (s : state) (args : obj).
Hypothesis Hschema : Zod.optional is_string (get args "filename") = true.

Lemma save_scene_rejected :
  endsWith (filename_or_default (get args "filename")) ".excalidraw" = false ->
  call_tool types "save_scene" e s args =
  caught s (Error "Filename must end with .excalidraw").
Proof.
  intros Hends. unfold call_tool.
  change (dispatch types "save_scene" e s args) with (save_scene e s args).
  unfold save_scene, Zod.SaveSceneSchema. by rewrite Hschema, Hends.
Qed.

Lemma save_scene_outcome :
  endsWith (filename_or_default (get args "filename")) ".excalidraw" = true ->
  call_tool types "save_scene" e s args =
  {| final := with_elements s (prod_map id repair <$> elements s);
     written := [{| filename := filename_or_default (get args "filename");
                    document := sceneData (scene s)
                                  (JsMap.values (prod_map id repair <$> elements s)) |}];
     result :=
       match writeFile_error e with
       | None =>
           {| content := Plain ("Scene saved successfully to "
                                +:+ filename_or_default (get args "filename"));
              isError := false |}
       | Some message =>
           {| content := Plain ("Error saving scene: " +:+ message); isError := true |}
       end |}.
Proof.
  intros Hends. unfold call_tool.
  change (dispatch types "save_scene" e s args) with (save_scene e s args).
  unfold save_scene, Zod.SaveSceneSchema. by rewrite Hschema, Hends.
Qed.

End SaveScene.

(** C6, as the code has it.  The name used is the supplied filename, or
    [mcp_scene.excalidraw] when none or the empty string is supplied.  If that
    name does not end in [.excalidraw] the call fails with the validation
    message, writes nothing and changes nothing.  Otherwise exactly one
    write is attempted, of a document whose elements are the repository's
    records in order after the repair of arrows and lines with fewer than two
    points (the records themselves when none needs repair), the repository
    holds the repaired records afterwards, and a rejected write is answered
    with an error result that carries the rejection's message. *)
Theorem save_scene_contract
  (types : list string) (e : env) (s : state) (args : obj) (name : string) :
  Zod.optional is_string (get args "filename") = true ->
  filename_or_default (get args "filename") = name ->
  let o := call_tool types "save_scene" e s args in
  (forall f, get args "filename" = VStr f -> f ≠ "" -> name = f) /\
  (get args "filename" = VUndef \/ get args "filename" = VStr "" ->
   name = "mcp_scene.excalidraw") /\
  (endsWith name ".excalidraw" = false ->
   written o = [] /\ final o = s /\
   result o = {| content := Plain "Error: Filename must end with .excalidraw";
                 isError := true |}) /\
  (endsWith name ".excalidraw" = true ->
   (exists doc, written o = [{| filename := name; document := doc |}] /\
      document_elements doc = VObj <$> (repair <$> JsMap.values (elements s)) /\
      (Forall (fun el => repair el = el) (JsMap.values (elements s)) ->
       document_elements doc = VObj <$> JsMap.values (elements s))) /\
   JsMap.values (elements (final o)) = repair <$> JsMap.values (elements s) /\
   (writeFile_error e = None -> isError (result o) = false) /\
   (forall message, writeFile_error e = Some message ->
      result o = {| content := Plain ("Error saving scene: " +:+ message);
                    isError := true |})).
Proof.
  intros Hschema Hname o. split; [|split; [|split]].
  - intros f Hf Hne. rewrite Hf in Hname. by rewrite filename_or_default_given in Hname.
  - intros [H|H]; rewrite H in Hname; by rewrite <- Hname.
  - intros Hends. subst o. rewrite <- Hname in Hends.
    by rewrite (save_scene_rejected _ _ _ _ Hschema Hends).
  - intros Hends. subst o. rewrite <- Hname in Hends.
    rewrite (save_scene_outcome _ _ _ _ Hschema Hends).
    unfold with_elements. cbn [written final result elements].
    rewrite Hname, !values_fmap. split; [|split; [reflexivity|split]].
    + eexists. split; [reflexivity|].
      rewrite document_elements_sceneData. split; [done|].
      intros Hall. f_equal. induction Hall as [|el l Hel _ IH]; [done|].
      cbn. by rewrite Hel, IH.
    + by intros ->.
    + by intros m ->.
Qed.

Lemma save_scene_contract_witness :
  let o := call_tool listed_types "save_scene" Sample.env_disk_full Sample.one_arrow
             (literal [("filename", VStr "drawing.excalidraw")]) in
  (forall f, VStr "drawing.excalidraw" = VStr f -> f ≠ "" -> "drawing.excalidraw" = f) /\
  (VStr "drawing.excalidraw" = VUndef \/ VStr "drawing.excalidraw" = VStr "" ->
   "drawing.excalidraw" = "mcp_scene.excalidraw") /\
  (endsWith "drawing.excalidraw" ".excalidraw" = false ->
   written o = [] /\ final o = Sample.one_arrow /\
   result o = {| content := Plain "Error: Filename must end with .excalidraw";
                 isError := true |}) /\
  (endsWith "drawing.excalidraw" ".excalidraw" = true ->
   (exists doc, written o = [{| filename := "drawing.excalidraw"; document := doc |}] /\
      document_elements doc = VObj <$> (repair <$> JsMap.values (elements Sample.one_arrow)) /\
      (Forall (fun el => repair el = el) (JsMap.values (elements Sample.one_arrow)) ->
       document_elements doc = VObj <$> JsMap.values (elements Sample.one_arrow))) /\
   JsMap.values (elements (final o)) = repair <$> JsMap.values (elements Sample.one_arrow) /\
   (writeFile_error Sample.env_disk_full = None -> isError (result o) = false) /\
   (forall message, writeFile_error Sample.env_disk_full = Some message ->
      result o = {| content := Plain ("Error saving scene: " +:+ message);
                    isError := true |})).
Proof.
  apply (save_scene_contract listed_types Sample.env_disk_full Sample.one_arrow
           (literal [("filename", VStr "drawing.excalidraw")]) "drawing.excalidraw").
  - reflexivity.
  - reflexivity.
Defined.

(** C6 as stated fails: the empty filename does not end in [.excalidraw],
    yet the call succeeds and writes [mcp_scene.excalidraw]. *)
Lemma save_scene_empty_filename_writes :
  endsWith "" ".excalidraw" = false /\
  filename <$> written (call_tool listed_types "save_scene" Sample.env0 Sample.one_arrow
                          (literal [("filename", VStr "")]))
    = ["mcp_scene.excalidraw"] /\
  isError (result (call_tool listed_types "save_scene" Sample.env0 Sample.one_arrow
                     (literal [("filename", VStr "")]))) = false.
Proof. repeat split; vm_compute; reflexivity. Qed.

(** The repair step changes what is written: a rectangle retyped to an
    arrow has no points in the repository when [save_scene] is called, and
    two points in the document. *)
Lemma save_scene_repairs_before_writing :
  exists el doc,
    JsMap.values (elements Sample.retyped) = [el] /\
    get el "type" = VStr "arrow" /\ get el "points" = VUndef /\
    written (call_tool listed_types "save_scene" Sample.env0 Sample.retyped (literal []))
      = [{| filename := "mcp_scene.excalidraw"; document := doc |}] /\
    document_elements doc = [VObj (repair el)] /\
    get (repair el) "points" = VArr [VArr [VNum 0; VNum 0]; VArr [VNum 20; VNum 20]].
Proof.
  eexists _, _. split; [reflexivity|].
  split; [vm_compute; reflexivity|]. split; [vm_compute; reflexivity|].
  split; [reflexivity|]. split; [reflexivity|].
  vm_compute. reflexivity.
Qed.

(** ** Font names *)

Lemma create_fontFamily_name
  (types : list string) (e : env) (s : state) (args params : obj) (name : string) :
  Zod.ElementSchema types false (map_fontFamily args) = Some params ->
  get args "fontFamily" = VStr name ->
  exists el, created types e s args = Some el /\
             get el "fontFamily" = VNum (font_code name).
Proof.
  intros Hparse Hname. exists (new_element e params).
  split; [by apply created_new_element|].
  rewrite new_element_field by done.
  change (default VUndef (assoc "fontFamily" (element_literal e params)))
    with (coalesce (get params "fontFamily") (VNum 1)).
  rewrite (ElementSchema_get _ _ _ _ _ Hparse) by done.
  pose proof (scalars_ok_fontFamily _ _ _ (ElementSchema_scalars _ _ _ _ Hparse)) as Hnum.
  revert Hnum. unfold map_fontFamily. rewrite Hname.
  destruct (truthy (VStr name)).
  - rewrite get_insert_eq. unfold font_code, fontMap_get. cbn [assoc fontMap].
    destruct (String.eqb "virgil" _) eqn:E1.
    { apply String.eqb_eq in E1 as <-. done. }
    destruct (String.eqb "helvetica" _) eqn:E2.
    { apply String.eqb_eq in E2 as <-. done. }
    destruct (String.eqb "cascadia" _) eqn:E3.
    { apply String.eqb_eq in E3 as <-. done. }
    rewrite (String.eqb_sym _ "virgil"), E1, (String.eqb_sym _ "helvetica"), E2,
      (String.eqb_sym _ "cascadia"), E3.
    by destruct (existsb _ _).
  - by rewrite Hname.
Qed.

Example create_fontFamily_mixed_case :
  created listed_types Sample.env0 initial_state
    (literal [("type", VStr "text"); ("x", VNum 0); ("y", VNum 0);
              ("fontFamily", VStr "HelVetica")]) ≫= (fun el => el !! "fontFamily")
  = Some (VNum 2).
Proof. vm_compute. reflexivity. Qed.

Example create_fontFamily_unrecognized :
  created listed_types Sample.env0 initial_state
    (literal [("type", VStr "text"); ("x", VNum 0); ("y", VNum 0);
              ("fontFamily", VStr "Comic Sans")]) ≫= (fun el => el !! "fontFamily")
  = Some (VNum 1).
Proof. vm_compute. reflexivity. Qed.

(** A name that [fontMap] inherits from [Object.prototype] is not nullish,
    so the fallback does not apply and zod rejects the call. *)
Example create_fontFamily_inherited_name :
  result (call_tool listed_types "create_element" Sample.env0 initial_state
            (literal [("type", VStr "text"); ("x", VNum 0); ("y", VNum 0);
                      ("fontFamily", VStr "Constructor")]))
  = {| content := ZodIssues; isError := true |}.
Proof. vm_compute. reflexivity. Qed.

(** C8 on the code: [update_element] parses its arguments before it looks
    at [fontFamily], and the schema wants a number there, so every patch
    whose [fontFamily] is a string is rejected by zod and nothing is
    stored; the name mapping of the update path is never reached. *)
Theorem update_rejects_font_names
  (types : list string) (e : env) (s : state) (args : obj) (name : string) :
  get args "fontFamily" = VStr name ->
  call_tool types "update_element" e s args = caught s ZodError.
Proof.
  intros Hname. unfold call_tool.
  change (dispatch types "update_element" e s args) with (update_element types e s args).
  unfold update_element.
  destruct (Zod.UpdateSchema types args) as [raw|] eqn:Hraw; [|done].
  pose proof (scalars_ok_fontFamily _ _ _
    (ElementSchema_scalars _ _ _ _ (UpdateSchema_ElementSchema _ _ _ Hraw))) as H.
  by rewrite Hname in H.
Qed.

Lemma update_rejects_font_names_witness :
  call_tool listed_types "update_element" Sample.env1 Sample.one_rect
    (literal Sample.font_patch) = caught Sample.one_rect ZodError.
Proof.
  apply (update_rejects_font_names listed_types Sample.env1 Sample.one_rect
           (literal Sample.font_patch) "helvetica").
  reflexivity.
Defined.

Example update_font_name_leaves_fontFamily :
  JsMap.get "el-1" (elements (final (call_tool listed_types "update_element" Sample.env1
                                       Sample.one_rect (literal Sample.font_patch))))
    ≫= (fun el => el !! "fontFamily")
  = Some (VNum 1).
Proof. vm_compute. reflexivity. Qed.

(** ** Supplied points *)

Lemma Zod_point_obj p : Zod.point (point_obj p) = Some (point_obj p).
Proof. unfold Zod.point, point_obj. by rewrite !get_literal. Qed.

Lemma Zod_points_objs pts :
  Zod.points (VArr (point_obj <$> pts)) = Some (VArr (point_obj <$> pts)).
Proof.
  unfold Zod.points.
  assert (H : mapM Zod.point (point_obj <$> pts) = Some (point_obj <$> pts)).
  { apply mapM_Some. induction pts as [|p r IH]; constructor; [|done].
    apply Zod_point_obj. }
  by rewrite H.
Qed.

Lemma repair_enough_points el l :
  get el "points" = VArr l -> (2 <= length l)%nat -> repair el = el.
Proof.
  intros Hp Hlen. unfold repair. rewrite Hp. unfold fewer_than_2_points.
  cbn [truthy negb orb]. apply Nat.ltb_ge in Hlen. rewrite Hlen.
  by rewrite andb_false_r.
Qed.

Lemma Map_get_values {V} (m : list (string * V)) k v :
  JsMap.get k m = Some v -> v ∈ JsMap.values m.
Proof.
  unfold JsMap.values. induction m as [|[k' v'] r IH]; [done|]. cbn.
  destruct (String.eqb k' k).
  - intros [= ->]. apply list_elem_of_here.
  - intros H. apply list_elem_of_further. by apply IH.
Qed.

(** Whatever the supplied points carry, the stored ones are what zod's
    point schema returns for them: the [x] and [y] of each, in order. *)
Lemma create_points_as_parsed
  (types : list string) (e : env) (s : state) (args params : obj) (l : list value) :
  Zod.ElementSchema types false (map_fontFamily args) = Some params ->
  get args "points" = VArr l ->
  (2 <= length l)%nat ->
  exists el l',
    created types e s args = Some el /\
    mapM Zod.point l = Some l' /\ length l' = length l /\
    get el "points" = VArr l'.
Proof.
  intros Hparse Hpts Hlen.
  pose proof (params_points _ _ _ Hparse) as Hp. rewrite Hpts in Hp.
  destruct (points_length _ _ Hp) as (l' & Hl' & Hlen').
  exists (new_element e params), l'.
  split; [by apply created_new_element|].
  split; [|split; [done|]].
  - revert Hp. rewrite Hl'. cbn. destruct (mapM Zod.point l); [|done].
    cbn. by intros [= ->].
  - rewrite new_element_points_supplied; [done|].
    rewrite Hl'. unfold fewer_than_2_points. cbn [truthy negb orb].
    rewrite Hlen'. apply Nat.ltb_ge in Hlen. rewrite Hlen. apply andb_false_r.
Qed.

(** C10: an [arrow] or [line] created with two or more points, given as
    objects with [x] and [y], is stored with exactly that sequence of
    objects (no coordinate-pair arrays); a [save_scene] that follows writes
    the record with these points unchanged and leaves it so in the
    repository. *)
Theorem supplied_points_stored_and_saved
  (types : list string) (e : env) (s : state) (args params : obj) (pts : list (Q * Q))
  (e' : env) (args' : obj) :
  Zod.ElementSchema types false (map_fontFamily args) = Some params ->
  is_linear args = true ->
  get args "points" = VArr (point_obj <$> pts) ->
  (2 <= length pts)%nat ->
  Zod.optional is_string (get args' "filename") = true ->
  endsWith (filename_or_default (get args' "filename")) ".excalidraw" = true ->
  exists el,
    created types e s args = Some el /\
    get el "points" = VArr (point_obj <$> pts) /\
    let o := call_tool types "save_scene" e'
               (final (call_tool types "create_element" e s args)) args' in
    (exists doc,
       written o = [{| filename := filename_or_default (get args' "filename");
                       document := doc |}] /\
       VObj el ∈ document_elements doc) /\
    JsMap.get (generateId e) (elements (final o)) = Some el.
Proof.
  intros Hparse Hlin Hpts Hlen Hschema Hends.
  pose proof (created_new_element _ e s _ _ Hparse) as Hcreated.
  assert (Hstored : get (new_element e params) "points" = VArr (point_obj <$> pts)).
  { rewrite new_element_points_supplied.
    - pose proof (params_points _ _ _ Hparse) as Hp.
      rewrite Hpts, Zod_points_objs in Hp. by injection Hp.
    - rewrite (params_fewer_than_2 _ _ _ Hparse), Hpts.
      unfold fewer_than_2_points. cbn [truthy negb orb].
      rewrite length_fmap. apply Nat.ltb_ge in Hlen. rewrite Hlen.
      apply andb_false_r. }
  assert (Hrep : repair (new_element e params) = new_element e params).
  { eapply repair_enough_points; [done|]. by rewrite length_fmap. }
  exists (new_element e params). split; [done|]. split; [done|].
  intros o. subst o. rewrite (save_scene_outcome _ _ _ _ Hschema Hends).
  unfold created in Hcreated. cbn [written final elements with_elements]. split.
  - eexists. split; [reflexivity|].
    rewrite document_elements_sceneData, values_fmap, <- Hrep.
    apply list_elem_of_fmap_2, list_elem_of_fmap_2.
    by eapply Map_get_values.
  - by rewrite get_fmap, Hcreated; cbn; rewrite Hrep.
Qed.

Lemma supplied_points_stored_and_saved_witness :
  exists el,
    created listed_types Sample.env0 initial_state (literal Sample.pointed_arrow) = Some el /\
    get el "points" = VArr (point_obj <$> Sample.two_points) /\
    let o := call_tool listed_types "save_scene" Sample.env1
               (final (call_tool listed_types "create_element" Sample.env0 initial_state
                         (literal Sample.pointed_arrow)))
               (literal [("filename", VStr "drawing.excalidraw")]) in
    (exists doc,
       written o = [{| filename := "drawing.excalidraw"; document := doc |}] /\
       VObj el ∈ document_elements doc) /\
    JsMap.get "el-1" (elements (final o)) = Some el.
Proof.
  apply (supplied_points_stored_and_saved listed_types Sample.env0 initial_state
           (literal Sample.pointed_arrow) (literal Sample.pointed_arrow)
           Sample.two_points Sample.env1
           (literal [("filename", VStr "drawing.excalidraw")])).
  - vm_compute. reflexivity.
  - reflexivity.
  - reflexivity.
  - vm_compute. lia.
  - reflexivity.
  - reflexivity.
Defined.

(** ** [align_elements] *)

(** The handler reads no element and stores nothing. *)
Lemma align_elements_changes_nothing (types : list string) e s args :
  final (call_tool types "align_elements" e s args) = s /\
  written (call_tool types "align_elements" e s args) = [].
Proof.
  unfold call_tool.
  change (dispatch types "align_elements" e s args) with (align_elements s args).
  unfold align_elements.
  destruct (Zod.AlignElementsSchema args) as [[ids al]|]; done.
Qed.

(** C1 at its failing input: rectangles at x = 10 and x = 50, aligned
    ["left"].  The call succeeds and the second rectangle stays at x = 50,
    where the claim has 10; with an identifier that is not in the
    repository the call succeeds as well. *)
Theorem align_left_moves_nothing :
  let o := Sample.call "align_elements" Sample.env0 Sample.two_rects
             (Sample.align_left ["el-1"; "el-2"]) in
  isError (result o) = false /\
  final o = Sample.two_rects /\
  JsMap.get "el-1" (elements (final o)) ≫= (fun el => el !! "x") = Some (VNum 10) /\
  JsMap.get "el-2" (elements (final o)) ≫= (fun el => el !! "x") = Some (VNum 50) /\
  JsMap.get "nope" (elements Sample.two_rects) = None /\
  isError (result (Sample.call "align_elements" Sample.env0 Sample.two_rects
                     (Sample.align_left ["nope"]))) = false.
Proof.
  cbv zeta. split; [vm_compute; reflexivity|]. split; [reflexivity|].
  repeat split; vm_compute; reflexivity.
Qed.

(** ** The shape of stored records *)

Section StoreShape.

Lemma wf_store_get m k el : wf_store m -> JsMap.get k m = Some el -> wf_record el.
Proof.
  unfold wf_store. intros Hm Hget. apply Map_get_values in Hget.
  unfold JsMap.values in Hget. apply list_elem_of_fmap in Hget as ([k' v] & -> & Hin).
  by apply (proj1 (Forall_forall _ _) Hm (k', v)).
Qed.

Lemma wf_store_set m k el : wf_store m -> wf_record el -> wf_store (JsMap.set k el m).
Proof.
  unfold wf_store. intros Hm Hel. induction Hm as [|[k' v] r Hv Hr IH]; cbn.
  - constructor; [exact Hel|constructor].
  - destruct (String.eqb k' k); constructor; try exact Hel; try exact Hv; assumption.
Qed.

Lemma wf_store_delete m k : wf_store m -> wf_store (JsMap.delete k (V:=obj) m).
Proof.
  unfold wf_store. intros Hm. induction Hm as [|[k' v] r Hv Hr IH]; cbn; [done|].
  destruct (String.eqb k' k); [done|]. by constructor.
Qed.

Lemma wf_store_fmap (f : obj -> obj) m :
  (forall el, wf_record el -> wf_record (f el)) ->
  wf_store m -> wf_store (prod_map id f <$> m).
Proof.
  unfold wf_store. intros Hf Hm. induction Hm as [|[k v] r Hv _ IH]; cbn; [done|].
  constructor; [|done]. by apply Hf.
Qed.

Lemma wf_record_insert el k v :
  k ≠ "version" -> k ≠ "points" -> wf_record el -> wf_record (<[k:=v]> el).
Proof. intros ?? H. unfold wf_record. by rewrite !get_insert_ne. Qed.

Lemma wf_record_repair el : wf_record el -> wf_record (repair el).
Proof.
  intros [Hv Hp]. unfold repair. destruct (_ && _); [|done]. split.
  - by rewrite get_insert_ne.
  - right. rewrite get_insert_eq. by eexists.
Qed.

Lemma wf_store_set_locked b ids m : wf_store m -> wf_store (set_locked b ids m).
Proof.
  unfold set_locked. revert m. induction ids as [|id r IH]; intros m Hm; [done|].
  cbn. apply IH. destruct (JsMap.get id m) as [el|] eqn:Hget; [|done].
  apply wf_store_set; [done|].
  apply wf_record_insert; [done|done|]. by eapply wf_store_get.
Qed.

Lemma points_shape v q :
  Zod.points v = Some q -> q = VUndef \/ exists l, q = VArr l.
Proof.
  destruct v; try done.
  - intros [= <-]. by left.
  - intros H. apply points_length in H as (l' & -> & _). right. by eexists.
Qed.

Lemma wf_new_element types partial e a params :
  Zod.ElementSchema types partial a = Some params -> wf_record (new_element e params).
Proof.
  intros Hparse. split.
  - exists 1%Z. split; [done|]. by rewrite new_element_field.
  - destruct (is_linear params && fewer_than_2_points (get params "points")) eqn:E.
    + apply andb_true_iff in E as [E1 E2]. right.
      rewrite new_element_points_synthesized by done. by eexists.
    + rewrite new_element_points_supplied by done.
      eapply points_shape, ElementSchema_points, Hparse.
Qed.

Lemma Qred_succ (n : Z) : Qred (inject_Z n + 1) = inject_Z (n + 1).
Proof.
  change 1%Q with (inject_Z 1). rewrite <- inject_Z_plus.
  apply Qcanon.Qred_identity. cbn. apply Z.gcd_1_r.
Qed.

Lemma or0_plus1_version (n : Z) : (1 <= n)%Z -> or0_plus1 (num n) = num (n + 1).
Proof.
  intros Hn. unfold or0_plus1, or_else, truthy, num.
  destruct (Qeq_bool (inject_Z n) 0) eqn:E.
  - apply Qeq_bool_eq in E. unfold Qeq, inject_Z in E. cbn in E. lia.
  - cbn [negb]. by rewrite Qred_succ.
Qed.

Lemma update_fontFamily_lookup existing updates k :
  k ≠ "fontFamily" -> update_fontFamily existing updates !! k = updates !! k.
Proof.
  intros. unfold update_fontFamily. destruct (get updates "fontFamily"); try done.
  by rewrite lookup_insert_ne.
Qed.

Lemma ElementSchema_points_lookup types partial a params :
  Zod.ElementSchema types partial a = Some params ->
  params !! "points" = None \/
  exists q, params !! "points" = Some q /\ (q = VUndef \/ exists l, q = VArr l).
Proof.
  unfold Zod.ElementSchema. destruct (Zod.scalars_ok types partial a); [|done].
  destruct (Zod.points (get a "points")) as [q|] eqn:Hq; [|done].
  intros [= <-]. case_decide as Hin.
  - right. exists q. rewrite lookup_insert_eq. split; [done|]. by eapply points_shape.
  - left. by apply eq_None_not_Some.
Qed.

Lemma wf_merged types e a raw existing :
  Zod.ElementSchema types true a = Some raw ->
  wf_record existing ->
  wf_record (merged_element e existing
               (update_opacity (update_fontFamily existing (delete "id" raw)))).
Proof.
  intros Hparse [(n & Hn & Hv) Hp]. split.
  - exists (n + 1)%Z. split; [lia|]. by rewrite merged_version, Hv, or0_plus1_version.
  - unfold get. rewrite merged_other by done.
    rewrite lookup_union, update_opacity_lookup, update_fontFamily_lookup,
      lookup_delete_ne by done.
    destruct (ElementSchema_points_lookup _ _ _ _ Hparse) as [->|(q & -> & Hq)].
    + by rewrite (left_id_L None _).
    + by destruct (existing !! "points").
Qed.

Variable types : list string.

Lemma dispatch_wf name e s args o :
  wf_store (elements s) ->
  dispatch types name e s args = inr o ->
  wf_store (elements (final o)).
Proof.
  intros Hs. unfold dispatch.
  repeat match goal with
         | |- (if ?b then _ else _) = _ -> _ => destruct b
         end.
  - unfold create_element.
    destruct (Zod.ElementSchema _ _ _) as [params|] eqn:Hparse; [|done].
    intros [= <-]. cbn. apply wf_store_set; [done|]. by eapply wf_new_element.
  - unfold update_element.
    destruct (Zod.UpdateSchema _ _) as [raw|] eqn:Hparse; [|done].
    destruct (get raw "id"); try done.
    destruct (String.eqb _ _); [done|].
    destruct (JsMap.get _ _) as [existing|] eqn:Hget; [|done].
    intros [= <-]. cbn. apply wf_store_set; [done|].
    eapply wf_merged; [by eapply UpdateSchema_ElementSchema|by eapply wf_store_get].
  - unfold delete_element. destruct (Zod.string_field _ _); [|done].
    destruct (negb _); [done|]. intros [= <-]. cbn. by apply wf_store_delete.
  - unfold query_elements. destruct (Zod.QuerySchema _ _) as [[ty f]|]; [|done].
    by intros [= <-].
  - unfold get_resource. destruct (Zod.ResourceSchema _); [|done].
    repeat match goal with
           | |- (if ?b then _ else _) = _ -> _ => destruct b
           end; try done; by intros [= <-].
  - unfold group_elements. destruct (Zod.ElementIdsSchema _); [|done]. by intros [= <-].
  - unfold ungroup_elements. destruct (Zod.string_field _ _); [|done].
    destruct (JsMap.get _ _); [|done]. by intros [= <-].
  - unfold align_elements. destruct (Zod.AlignElementsSchema _) as [[??]|]; [|done].
    by intros [= <-].
  - unfold distribute_elements.
    destruct (Zod.DistributeElementsSchema _) as [[??]|]; [|done]. by intros [= <-].
  - unfold lock_elements. destruct (Zod.ElementIdsSchema _); [|done].
    intros [= <-]. cbn. by apply wf_store_set_locked.
  - unfold unlock_elements. destruct (Zod.ElementIdsSchema _); [|done].
    intros [= <-]. cbn. by apply wf_store_set_locked.
  - unfold save_scene. destruct (Zod.SaveSceneSchema _); [|done].
    destruct (negb _); [done|]. intros [= <-]. cbn.
    apply wf_store_fmap; [apply wf_record_repair|done].
  - done.
Qed.

Lemma reachable_wf s : reachable types s -> wf_store (elements s).
Proof.
  induction 1 as [|name e s args _ IH]; [by constructor|].
  unfold call_tool. destruct (dispatch types name e s args) as [x|o] eqn:Hd; [done|].
  by eapply dispatch_wf.
Qed.

(** In every state the server can reach, each stored record has a numeric
    version, at least 1, and its [points] are absent or an array. *)
Lemma reachable_version_is_number s id el :
  reachable types s -> JsMap.get id (elements s) = Some el ->
  exists n : Z, (1 <= n)%Z /\ get el "version" = num n.
Proof. intros Hs Hget. by destruct (wf_store_get _ _ _ (reachable_wf s Hs) Hget). Qed.

Lemma reachable_points_shape s id el :
  reachable types s -> JsMap.get id (elements s) = Some el ->
  get el "points" = VUndef \/ exists l, get el "points" = VArr l.
Proof. intros Hs Hget. by destruct (wf_store_get _ _ _ (reachable_wf s Hs) Hget). Qed.

End StoreShape.

(** * Further properties of the handlers *)

(** ** More on the [Map] *)

Section MapOrder.

Context {V : Type}.
Implicit Types (m : list (string * V)) (k : string).

Lemma Map_get_None m k : JsMap.get k m = None <-> k ∉ JsMap.keys m.
Proof.
  unfold JsMap.keys. induction m as [|[k' v] r IH]; cbn.
  - split; [intros _; apply not_elem_of_nil|done].
  - rewrite not_elem_of_cons. destruct (String.eqb_spec k' k) as [->|Hne].
    + split; [done|]. by intros [? _].
    + rewrite IH. split; [by intros ?; split|by intros [_ ?]].
Qed.

Lemma Map_set_fresh m k v : JsMap.get k m = None -> JsMap.set k v m = (m ++ [(k, v)])%list.
Proof.
  induction m as [|[k' v'] r IH]; cbn; [done|].
  destruct (String.eqb k' k); [done|]. intros H. by rewrite IH.
Qed.

Lemma Map_keys_set_present m k v :
  JsMap.get k m ≠ None -> JsMap.keys (JsMap.set k v m) = JsMap.keys m.
Proof.
  unfold JsMap.keys. induction m as [|[k' v'] r IH]; cbn; [done|].
  destruct (String.eqb k' k); [done|]. intros H. cbn. by rewrite IH.
Qed.

Lemma Map_NoDup_set m k v :
  NoDup (JsMap.keys m) -> NoDup (JsMap.keys (JsMap.set k v m)).
Proof.
  intros Hm. destruct (JsMap.get k m) as [v0|] eqn:E.
  - rewrite Map_keys_set_present; [done|]. by rewrite E.
  - rewrite Map_set_fresh by done. unfold JsMap.keys. rewrite fmap_app. cbn.
    apply NoDup_app. split; [done|]. split; [|apply NoDup_singleton].
    intros x Hx Hin. apply list_elem_of_singleton in Hin as ->.
    by apply Map_get_None in E.
Qed.

Lemma Map_keys_delete m k x : x ∈ JsMap.keys (JsMap.delete k m) -> x ∈ JsMap.keys m.
Proof.
  unfold JsMap.keys. induction m as [|[k' v'] r IH]; cbn; [done|].
  destruct (String.eqb k' k); cbn.
  - apply list_elem_of_further.
  - rewrite !elem_of_cons. intros [->|H]; [by left|right; by apply IH].
Qed.

Lemma Map_NoDup_delete m k :
  NoDup (JsMap.keys m) -> NoDup (JsMap.keys (JsMap.delete k m)).
Proof.
  unfold JsMap.keys. induction m as [|[k' v'] r IH]; cbn; [done|].
  rewrite NoDup_cons. intros [Hnin Hr]. destruct (String.eqb k' k); [done|].
  cbn. apply NoDup_cons. split; [|by apply IH].
  intros Hin. apply Hnin. by eapply Map_keys_delete.
Qed.

Lemma Map_get_delete_eq m k :
  NoDup (JsMap.keys m) -> JsMap.get k (JsMap.delete k m) = None.
Proof.
  unfold JsMap.keys. induction m as [|[k' v'] r IH]; cbn; [done|].
  rewrite NoDup_cons. intros [Hnin Hr]. destruct (String.eqb_spec k' k) as [->|Hne].
  - by apply Map_get_None.
  - cbn. destruct (String.eqb_spec k' k); [done|]. by apply IH.
Qed.

Lemma Map_get_delete_ne m k k' :
  k ≠ k' -> JsMap.get k' (JsMap.delete k m) = JsMap.get k' m.
Proof.
  intros Hne. induction m as [|[k0 v0] r IH]; cbn; [done|].
  destruct (String.eqb_spec k0 k) as [->|]; cbn.
  - by destruct (String.eqb_spec k k').
  - by rewrite IH.
Qed.

Lemma Map_delete_fresh m k : JsMap.get k m = None -> JsMap.delete k m = m.
Proof.
  induction m as [|[k' v'] r IH]; cbn; [done|].
  destruct (String.eqb k' k); [done|]. intros H. by rewrite IH.
Qed.

Lemma Map_delete_set_fresh m k v :
  JsMap.get k m = None -> JsMap.delete k (JsMap.set k v m) = m.
Proof.
  induction m as [|[k' v'] r IH]; cbn.
  - by rewrite String.eqb_refl.
  - destruct (String.eqb k' k) eqn:E; [done|]. intros H. cbn. by rewrite E, IH.
Qed.

Lemma Map_keys_fmap (f : V -> V) m :
  JsMap.keys (prod_map id f <$> m) = JsMap.keys m.
Proof.
  unfold JsMap.keys. induction m as [|[k v] r IH]; [done|]. cbn. by f_equal.
Qed.

End MapOrder.

(** ** Identifiers, groups and the scene in reachable states *)

Section Keyed.

Lemma keyed_get m k el :
  keyed_store m -> JsMap.get k m = Some el -> get el "id" = VStr k.
Proof.
  intros [_ Hm]. induction Hm as [|[k' v] r Hv _ IH]; cbn; [done|].
  destruct (String.eqb_spec k' k) as [->|]; [|done]. by intros [= <-].
Qed.

Lemma keyed_set m k el :
  keyed_store m -> get el "id" = VStr k -> keyed_store (JsMap.set k el m).
Proof.
  intros [Hnd Hm] Hel. split; [by apply Map_NoDup_set|]. clear Hnd.
  induction Hm as [|[k' v] r Hv Hr IH]; cbn.
  - constructor; [exact Hel|constructor].
  - destruct (String.eqb_spec k' k) as [->|]; constructor;
      try exact Hel; try exact Hv; assumption.
Qed.

Lemma keyed_delete m k : keyed_store m -> keyed_store (JsMap.delete k m).
Proof.
  intros [Hnd Hm]. split; [by apply Map_NoDup_delete|]. clear Hnd.
  induction Hm as [|[k' v] r Hv Hr IH]; cbn; [constructor|].
  destruct (String.eqb k' k); [done|]. by constructor.
Qed.

Lemma keyed_fmap (f : obj -> obj) m :
  (forall el, get (f el) "id" = get el "id") ->
  keyed_store m -> keyed_store (prod_map id f <$> m).
Proof.
  intros Hf [Hnd Hm]. split; [by rewrite Map_keys_fmap|]. clear Hnd.
  induction Hm as [|[k v] r Hv Hr IH]; cbn; [constructor|].
  constructor; [|done]. cbn in *. by rewrite Hf.
Qed.

Lemma keyed_set_locked b ids m : keyed_store m -> keyed_store (set_locked b ids m).
Proof.
  unfold set_locked. revert m. induction ids as [|id r IH]; intros m Hm; [done|].
  cbn. apply IH. destruct (JsMap.get id m) as [el|] eqn:Hget; [|done].
  apply keyed_set; [done|]. rewrite get_insert_ne by done. by eapply keyed_get.
Qed.

Lemma repair_id el : get (repair el) "id" = get el "id".
Proof. unfold repair. destruct (_ && _); [|done]. by rewrite get_insert_ne. Qed.

Variable types : list string.

Lemma dispatch_keyed name e s args o :
  keyed_store (elements s) ->
  NoDup (JsMap.keys (groups (scene s))) ->
  default_scene (scene s) ->
  dispatch types name e s args = inr o ->
  keyed_store (elements (final o)) /\
  NoDup (JsMap.keys (groups (scene (final o)))) /\
  default_scene (scene (final o)).
Proof.
  intros Hs Hg Hd. unfold dispatch.
  repeat match goal with
         | |- (if ?b then _ else _) = _ -> _ => destruct b
         end.
  - unfold create_element.
    destruct (Zod.ElementSchema _ _ _) as [params|] eqn:Hparse; [|done].
    intros [= <-]. cbn. split; [|done]. apply keyed_set; [done|].
    by rewrite new_element_field.
  - unfold update_element.
    destruct (Zod.UpdateSchema _ _) as [raw|] eqn:Hparse; [|done].
    destruct (get raw "id"); try done.
    destruct (String.eqb _ _); [done|].
    destruct (JsMap.get _ _) as [existing|] eqn:Hget; [|done].
    intros [= <-]. cbn. split; [|done]. apply keyed_set; [done|].
    rewrite merged_id; [by eapply keyed_get|].
    by rewrite update_opacity_lookup, update_fontFamily_lookup, lookup_delete_eq.
  - unfold delete_element. destruct (Zod.string_field _ _); [|done].
    destruct (negb _); [done|]. intros [= <-]. cbn. split; [|done].
    by apply keyed_delete.
  - unfold query_elements. destruct (Zod.QuerySchema _ _) as [[ty f]|]; [|done].
    by intros [= <-].
  - unfold get_resource. destruct (Zod.ResourceSchema _); [|done].
    repeat match goal with
           | |- (if ?b then _ else _) = _ -> _ => destruct b
           end; try done; by intros [= <-].
  - unfold group_elements. destruct (Zod.ElementIdsSchema _); [|done].
    intros [= <-]. cbn. split; [done|]. split; [|done]. by apply Map_NoDup_set.
  - unfold ungroup_elements. destruct (Zod.string_field _ _); [|done].
    destruct (JsMap.get _ _); [|done]. intros [= <-]. cbn.
    split; [done|]. split; [|done]. by apply Map_NoDup_delete.
  - unfold align_elements. destruct (Zod.AlignElementsSchema _) as [[??]|]; [|done].
    by intros [= <-].
  - unfold distribute_elements.
    destruct (Zod.DistributeElementsSchema _) as [[??]|]; [|done]. by intros [= <-].
  - unfold lock_elements. destruct (Zod.ElementIdsSchema _); [|done].
    intros [= <-]. cbn. split; [|done]. by apply keyed_set_locked.
  - unfold unlock_elements. destruct (Zod.ElementIdsSchema _); [|done].
    intros [= <-]. cbn. split; [|done]. by apply keyed_set_locked.
  - unfold save_scene. destruct (Zod.SaveSceneSchema _); [|done].
    destruct (negb _); [done|]. intros [= <-]. cbn. split; [|done].
    apply keyed_fmap; [apply repair_id|done].
  - done.
Qed.

Lemma reachable_keyed s :
  reachable types s ->
  keyed_store (elements s) /\
  NoDup (JsMap.keys (groups (scene s))) /\
  default_scene (scene s).
Proof.
  induction 1 as [|name e s args _ (IH1 & IH2 & IH3)].
  - split; [split; [apply NoDup_nil_2|constructor]|]. split; [apply NoDup_nil_2|done].
  - unfold call_tool. destruct (dispatch types name e s args) as [x|o] eqn:Hd; [done|].
    by eapply dispatch_keyed.
Qed.

End Keyed.

(** X1: in every state the server can reach, a record is stored under its
    own [id], and the repository lists no identifier twice. *)
Theorem stored_under_own_id (types : list string) (s : state) (k : string) (el : obj) :
  reachable types s ->
  JsMap.get k (elements s) = Some el ->
  get el "id" = VStr k /\ NoDup (JsMap.keys (elements s)).
Proof.
  intros Hs Hget. destruct (reachable_keyed types s Hs) as (Hk & _ & _).
  split; [by eapply keyed_get|]. by destruct Hk.
Qed.

Lemma reachable_two_rects : reachable listed_types Sample.two_rects.
Proof. do 2 apply reachable_call. apply reachable_initial. Qed.

Lemma reachable_retyped : reachable listed_types Sample.retyped.
Proof. do 2 apply reachable_call. apply reachable_initial. Qed.

Lemma stored_under_own_id_witness :
  get (new_element Sample.env1 (literal (Sample.rect_at 50))) "id" = VStr "el-2" /\
  NoDup (JsMap.keys (elements Sample.two_rects)).
Proof.
  apply (stored_under_own_id listed_types Sample.two_rects "el-2").
  - apply reachable_two_rects.
  - reflexivity.
Defined.

(** X2: in every state the server can reach, each stored record has an
    integer [version] of at least 1, and its [points] are absent or an
    array. *)
Theorem stored_record_shape (types : list string) (s : state) (k : string) (el : obj) :
  reachable types s ->
  JsMap.get k (elements s) = Some el ->
  (exists n : Z, (1 <= n)%Z /\ get el "version" = num n) /\
  (get el "points" = VUndef \/ exists l, get el "points" = VArr l).
Proof. intros Hs Hget. exact (wf_store_get _ _ _ (reachable_wf types s Hs) Hget). Qed.

Lemma stored_record_shape_witness :
  let el := merged_element Sample.env1
              (new_element Sample.env0 (literal (Sample.rect_at 10)))
              (update_opacity (delete "id" (literal Sample.retype_patch))) in
  (exists n : Z, (1 <= n)%Z /\ get el "version" = num n) /\
  (get el "points" = VUndef \/ exists l, get el "points" = VArr l).
Proof.
  apply (stored_record_shape listed_types Sample.retyped "el-1").
  - apply reachable_retyped.
  - reflexivity.
Defined.

(** X3: no tool changes the theme, the background, the viewport or the
    selection, so in every reachable state a [save_scene] that passes the
    filename check writes the fixed header fields and the [appState] block of
    the default scene. *)
Theorem saved_document_header
  (types : list string) (e : env) (s : state) (args : obj) :
  reachable types s ->
  Zod.optional is_string (get args "filename") = true ->
  endsWith (filename_or_default (get args "filename")) ".excalidraw" = true ->
  default_scene (scene s) /\
  exists doc,
    written (call_tool types "save_scene" e s args) =
      [{| filename := filename_or_default (get args "filename"); document := doc |}] /\
    document_field doc "type" = VStr "excalidraw" /\
    document_field doc "version" = VNum 2 /\
    document_field doc "source" = VStr "mcp-server" /\
    document_field doc "appState" = default_appState /\
    document_field doc "files" = VObj ∅.
Proof.
  intros Hs Hschema Hends.
  destruct (reachable_keyed types s Hs) as (_ & _ & Hd). split; [done|].
  rewrite (save_scene_outcome _ _ _ _ Hschema Hends). cbn [written].
  eexists. split; [reflexivity|].
  unfold document_field, sceneData. rewrite !get_literal.
  destruct Hd as (Ht & Hb & Hv & Hsel). rewrite Ht, Hb, Hv, Hsel.
  repeat split; reflexivity.
Qed.

Lemma saved_document_header_witness :
  default_scene (scene Sample.two_rects) /\
  exists doc,
    written (call_tool listed_types "save_scene" Sample.env0 Sample.two_rects
               (literal [("filename", VStr "a.excalidraw")])) =
      [{| filename := "a.excalidraw"; document := doc |}] /\
    document_field doc "type" = VStr "excalidraw" /\
    document_field doc "version" = VNum 2 /\
    document_field doc "source" = VStr "mcp-server" /\
    document_field doc "appState" = default_appState /\
    document_field doc "files" = VObj ∅.
Proof.
  apply (saved_document_header listed_types Sample.env0 Sample.two_rects
           (literal [("filename", VStr "a.excalidraw")])).
  - apply reachable_two_rects.
  - reflexivity.
  - reflexivity.
Defined.

(** ** [delete_element] *)

Lemma delete_element_outcome types e s args id :
  get args "id" = VStr id ->
  JsMap.get id (elements s) ≠ None ->
  call_tool types "delete_element" e s args =
  {| final := with_elements s (JsMap.delete id (elements s));
     written := [];
     result := {| content := Json (VObj (literal [("id", VStr id); ("deleted", VBool true)]));
                  isError := false |} |}.
Proof.
  intros Hid Hsome. unfold call_tool.
  change (dispatch types "delete_element" e s args) with (delete_element s args).
  unfold delete_element, Zod.string_field, JsMap.has. rewrite Hid.
  by destruct (JsMap.get id (elements s)).
Qed.

(** X4: deleting an identifier that is in the repository answers
    [{ id, deleted: true }], removes that record and no other, leaves the
    scene alone, and makes a second delete of the same identifier fail with
    not-found. *)
Theorem delete_element_removes
  (types : list string) (e e' : env) (s : state) (args : obj) (id : string) (el : obj) :
  reachable types s ->
  get args "id" = VStr id ->
  JsMap.get id (elements s) = Some el ->
  let o := call_tool types "delete_element" e s args in
  result o = {| content := Json (VObj (literal [("id", VStr id); ("deleted", VBool true)]));
                isError := false |} /\
  JsMap.get id (elements (final o)) = None /\
  (forall k, k ≠ id -> JsMap.get k (elements (final o)) = JsMap.get k (elements s)) /\
  scene (final o) = scene s /\
  result (call_tool types "delete_element" e' (final o) args) = not_found_response id.
Proof.
  intros Hs Hid Hget o. subst o.
  destruct (reachable_keyed types s Hs) as ([Hnd _] & _ & _).
  rewrite (delete_element_outcome _ _ _ _ _ Hid) by (by rewrite Hget).
  cbn [final result elements with_elements scene].
  assert (Hgone : JsMap.get id (JsMap.delete id (elements s)) = None)
    by (by apply Map_get_delete_eq).
  split; [done|]. split; [done|]. split; [|split; [done|]].
  - intros k Hk. by apply Map_get_delete_ne.
  - by rewrite (delete_element_not_found types e'
             (with_elements s (JsMap.delete id (elements s))) args id Hid Hgone).
Qed.

Lemma delete_element_removes_witness :
  let o := call_tool listed_types "delete_element" Sample.env0 Sample.two_rects
             (literal [("id", VStr "el-1")]) in
  result o = {| content := Json (VObj (literal [("id", VStr "el-1"); ("deleted", VBool true)]));
                isError := false |} /\
  JsMap.get "el-1" (elements (final o)) = None /\
  (forall k, k ≠ "el-1" ->
             JsMap.get k (elements (final o)) = JsMap.get k (elements Sample.two_rects)) /\
  scene (final o) = scene Sample.two_rects /\
  result (call_tool listed_types "delete_element" Sample.env1 (final o)
            (literal [("id", VStr "el-1")])) = not_found_response "el-1".
Proof.
  apply (delete_element_removes listed_types Sample.env0 Sample.env1 Sample.two_rects
           (literal [("id", VStr "el-1")]) "el-1"
           (new_element Sample.env0 (literal (Sample.rect_at 10)))).
  - apply reachable_two_rects.
  - reflexivity.
  - reflexivity.
Defined.

(** ** [lock_elements] and [unlock_elements] *)

Lemma set_locked_get b ids m k :
  JsMap.get k (set_locked b ids m) = locked_as b ids k <$> JsMap.get k m.
Proof.
  unfold set_locked. revert m. induction ids as [|id r IH]; intros m.
  - cbn. unfold locked_as. by destruct (JsMap.get k m).
  - cbn [foldl]. rewrite IH. unfold locked_as.
    destruct (decide (k = id)) as [->|Hne].
    + rewrite (bool_decide_eq_true_2 (id ∈ id :: r)) by apply list_elem_of_here.
      destruct (JsMap.get id m) as [el|] eqn:Hget.
      * rewrite Map_get_set_eq. cbn. destruct (bool_decide (id ∈ r)); [|done].
        by rewrite insert_insert_eq.
      * by rewrite Hget.
    + assert (Hiff : bool_decide (k ∈ id :: r) = bool_decide (k ∈ r)).
      { apply bool_decide_ext. rewrite elem_of_cons.
        split; [by intros [?|?]|by right]. }
      rewrite Hiff. destruct (JsMap.get id m) as [el|] eqn:Hget; [|done].
      by rewrite Map_get_set_ne.
Qed.

Lemma set_locked_keys b ids m : JsMap.keys (set_locked b ids m) = JsMap.keys m.
Proof.
  unfold set_locked. revert m. induction ids as [|id r IH]; intros m; [done|].
  cbn [foldl]. rewrite IH. destruct (JsMap.get id m) as [el|] eqn:Hget; [|done].
  apply Map_keys_set_present. by rewrite Hget.
Qed.

Lemma lock_elements_outcome types e s args ids :
  Zod.ElementIdsSchema args = Some ids ->
  call_tool types "lock_elements" e s args =
  {| final := with_elements s (set_locked true ids (elements s));
     written := [];
     result := {| content := Json (VObj (literal [("locked", VBool true);
                                                  ("elementIds", strings ids)]));
                  isError := false |} |}.
Proof.
  intros H. unfold call_tool.
  change (dispatch types "lock_elements" e s args) with (lock_elements s args).
  unfold lock_elements. by rewrite H.
Qed.

Lemma unlock_elements_outcome types e s args ids :
  Zod.ElementIdsSchema args = Some ids ->
  call_tool types "unlock_elements" e s args =
  {| final := with_elements s (set_locked false ids (elements s));
     written := [];
     result := {| content := Json (VObj (literal [("unlocked", VBool true);
                                                  ("elementIds", strings ids)]));
                  isError := false |} |}.
Proof.
  intros H. unfold call_tool.
  change (dispatch types "unlock_elements" e s args) with (unlock_elements s args).
  unfold unlock_elements. by rewrite H.
Qed.

(** X5: [lock_elements] succeeds for any list of identifiers, also unknown
    ones; it sets [locked] to [true] on the named records that exist and
    touches nothing else: no other field, no other record, not the order of
    the repository, not the scene.  [unlock_elements] does the same with
    [false]. *)
Theorem lock_elements_sets_locked
  (types : list string) (e : env) (s : state) (args : obj) (ids : list string) :
  Zod.ElementIdsSchema args = Some ids ->
  let l := call_tool types "lock_elements" e s args in
  let u := call_tool types "unlock_elements" e s args in
  (isError (result l) = false /\
   JsMap.keys (elements (final l)) = JsMap.keys (elements s) /\
   scene (final l) = scene s /\
   forall k, JsMap.get k (elements (final l)) =
             locked_as true ids k <$> JsMap.get k (elements s)) /\
  (isError (result u) = false /\
   JsMap.keys (elements (final u)) = JsMap.keys (elements s) /\
   scene (final u) = scene s /\
   forall k, JsMap.get k (elements (final u)) =
             locked_as false ids k <$> JsMap.get k (elements s)).
Proof.
  intros H l u. subst l u.
  rewrite (lock_elements_outcome _ _ _ _ _ H), (unlock_elements_outcome _ _ _ _ _ H).
  cbn [final result elements with_elements scene isError].
  rewrite !set_locked_keys. repeat split; try done; intros k; apply set_locked_get.
Qed.

Lemma lock_elements_sets_locked_witness :
  let args := literal [("elementIds", VArr [VStr "el-2"; VStr "nope"])] in
  let l := call_tool listed_types "lock_elements" Sample.env0 Sample.two_rects args in
  let u := call_tool listed_types "unlock_elements" Sample.env0 Sample.two_rects args in
  (isError (result l) = false /\
   JsMap.keys (elements (final l)) = JsMap.keys (elements Sample.two_rects) /\
   scene (final l) = scene Sample.two_rects /\
   forall k, JsMap.get k (elements (final l)) =
             locked_as true ["el-2"; "nope"] k <$> JsMap.get k (elements Sample.two_rects)) /\
  (isError (result u) = false /\
   JsMap.keys (elements (final u)) = JsMap.keys (elements Sample.two_rects) /\
   scene (final u) = scene Sample.two_rects /\
   forall k, JsMap.get k (elements (final u)) =
             locked_as false ["el-2"; "nope"] k <$> JsMap.get k (elements Sample.two_rects)).
Proof.
  apply (lock_elements_sets_locked listed_types Sample.env0 Sample.two_rects
           (literal [("elementIds", VArr [VStr "el-2"; VStr "nope"])]) ["el-2"; "nope"]).
  reflexivity.
Defined.

(** X6: unlocking after locking the same identifiers leaves every record
    as unlocking alone does: the named records that exist end with
    [locked = false], all the others are as before the lock. *)
Theorem unlock_after_lock
  (types : list string) (e e' : env) (s : state) (args : obj) (ids : list string) :
  Zod.ElementIdsSchema args = Some ids ->
  let locked := final (call_tool types "lock_elements" e s args) in
  forall k,
    JsMap.get k (elements (final (call_tool types "unlock_elements" e' locked args))) =
    JsMap.get k (elements (final (call_tool types "unlock_elements" e' s args))).
Proof.
  intros H locked k. subst locked.
  rewrite !(unlock_elements_outcome _ _ _ _ _ H), (lock_elements_outcome _ _ _ _ _ H).
  cbn [final elements with_elements]. rewrite !set_locked_get.
  destruct (JsMap.get k (elements s)) as [el|]; [|done]. cbn. f_equal.
  unfold locked_as. case_bool_decide; [|done]. by rewrite insert_insert_eq.
Qed.

Lemma unlock_after_lock_witness :
  let args := literal [("elementIds", VArr [VStr "el-2"; VStr "nope"])] in
  let locked := final (call_tool listed_types "lock_elements" Sample.env0
                         Sample.two_rects args) in
  forall k,
    JsMap.get k (elements (final (call_tool listed_types "unlock_elements" Sample.env1
                                    locked args))) =
    JsMap.get k (elements (final (call_tool listed_types "unlock_elements" Sample.env1
                                    Sample.two_rects args))).
Proof.
  apply (unlock_after_lock listed_types Sample.env0 Sample.env1 Sample.two_rects
           (literal [("elementIds", VArr [VStr "el-2"; VStr "nope"])]) ["el-2"; "nope"]).
  reflexivity.
Defined.

(** ** [group_elements] and [ungroup_elements] *)

Lemma group_elements_outcome types e s args ids :
  Zod.ElementIdsSchema args = Some ids ->
  call_tool types "group_elements" e s args =
  {| final := with_groups s (JsMap.set (generateId e) ids (groups (scene s)));
     written := [];
     result := {| content := Json (VObj (literal [("groupId", VStr (generateId e));
                                                  ("elementIds", strings ids)]));
                  isError := false |} |}.
Proof.
  intros H. unfold call_tool.
  change (dispatch types "group_elements" e s args) with (group_elements e s args).
  unfold group_elements. by rewrite H.
Qed.

Lemma ungroup_elements_outcome types e s args g ids :
  get args "groupId" = VStr g ->
  JsMap.get g (groups (scene s)) = Some ids ->
  call_tool types "ungroup_elements" e s args =
  {| final := with_groups s (JsMap.delete g (groups (scene s)));
     written := [];
     result := {| content := Json (VObj (literal [("groupId", VStr g);
                                                  ("ungrouped", VBool true);
                                                  ("elementIds", strings ids)]));
                  isError := false |} |}.
Proof.
  intros Hg Hget. unfold call_tool.
  change (dispatch types "ungroup_elements" e s args) with (ungroup_elements s args).
  unfold ungroup_elements, Zod.string_field. by rewrite Hg, Hget.
Qed.

Lemma ungroup_elements_not_found types e s args g :
  get args "groupId" = VStr g ->
  JsMap.get g (groups (scene s)) = None ->
  call_tool types "ungroup_elements" e s args =
  caught s (Error ("Group " +:+ g +:+ " not found")).
Proof.
  intros Hg Hget. unfold call_tool.
  change (dispatch types "ungroup_elements" e s args) with (ungroup_elements s args).
  unfold ungroup_elements, Zod.string_field. by rewrite Hg, Hget.
Qed.

Lemma with_groups_same s : with_groups s (groups (scene s)) = s.
Proof. by destruct s as [m []]. Qed.

Lemma with_groups_twice s g g' : with_groups (with_groups s g) g' = with_groups s g'.
Proof. done. Qed.

(** X7: [group_elements] stores the identifiers as given, without looking
    them up, and changes no element; [ungroup_elements] on the group
    identifier it answered with returns exactly those identifiers, and when
    that identifier was not already a group the whole state is as before the
    grouping. *)
Theorem group_then_ungroup
  (types : list string) (e e' : env) (s : state) (args args' : obj) (ids : list string) :
  Zod.ElementIdsSchema args = Some ids ->
  get args' "groupId" = VStr (generateId e) ->
  let g := call_tool types "group_elements" e s args in
  let u := call_tool types "ungroup_elements" e' (final g) args' in
  result g = {| content := Json (VObj (literal [("groupId", VStr (generateId e));
                                                ("elementIds", strings ids)]));
                isError := false |} /\
  elements (final g) = elements s /\
  JsMap.get (generateId e) (groups (scene (final g))) = Some ids /\
  result u = {| content := Json (VObj (literal [("groupId", VStr (generateId e));
                                                ("ungrouped", VBool true);
                                                ("elementIds", strings ids)]));
                isError := false |} /\
  elements (final u) = elements s /\
  (JsMap.get (generateId e) (groups (scene s)) = None -> final u = s).
Proof.
  intros Hids Hg g u. subst g u.
  rewrite (group_elements_outcome _ _ _ _ _ Hids). cbn [final result].
  assert (Hget : JsMap.get (generateId e)
                   (groups (scene (with_groups s
                      (JsMap.set (generateId e) ids (groups (scene s)))))) = Some ids)
    by apply Map_get_set_eq.
  rewrite (ungroup_elements_outcome _ _ _ _ _ _ Hg Hget). cbn [final result].
  repeat split; try done.
  intros Hfresh. rewrite with_groups_twice. cbn [groups scene with_groups].
  rewrite Map_delete_set_fresh by done. apply with_groups_same.
Qed.

Lemma group_then_ungroup_witness :
  let g := call_tool listed_types "group_elements" Sample.env_disk_full Sample.two_rects
             (literal [("elementIds", VArr [VStr "el-1"; VStr "ghost"])]) in
  let u := call_tool listed_types "ungroup_elements" Sample.env0 (final g)
             (literal [("groupId", VStr "el-3")]) in
  result g = {| content := Json (VObj (literal [("groupId", VStr "el-3");
                                                ("elementIds", strings ["el-1"; "ghost"])]));
                isError := false |} /\
  elements (final g) = elements Sample.two_rects /\
  JsMap.get "el-3" (groups (scene (final g))) = Some ["el-1"; "ghost"] /\
  result u = {| content := Json (VObj (literal [("groupId", VStr "el-3");
                                                ("ungrouped", VBool true);
                                                ("elementIds", strings ["el-1"; "ghost"])]));
                isError := false |} /\
  elements (final u) = elements Sample.two_rects /\
  (JsMap.get "el-3" (groups (scene Sample.two_rects)) = None -> final u = Sample.two_rects).
Proof.
  apply (group_then_ungroup listed_types Sample.env_disk_full Sample.env0 Sample.two_rects
           (literal [("elementIds", VArr [VStr "el-1"; VStr "ghost"])])
           (literal [("groupId", VStr "el-3")]) ["el-1"; "ghost"]).
  - reflexivity.
  - reflexivity.
Defined.

(** X8: [ungroup_elements] on an identifier that is not a group fails with
    "Group ... not found" and changes nothing; in a reachable state this is
    what a second ungroup of the same group gets. *)
Theorem ungroup_unknown_group
  (types : list string) (e e' : env) (s : state) (args : obj) (g : string) :
  reachable types s ->
  get args "groupId" = VStr g ->
  let u := call_tool types "ungroup_elements" e s args in
  let again := call_tool types "ungroup_elements" e' (final u) args in
  (JsMap.get g (groups (scene s)) = None ->
   final u = s /\ written u = [] /\
   result u = {| content := Plain ("Error: Group " +:+ g +:+ " not found");
                 isError := true |}) /\
  result again = {| content := Plain ("Error: Group " +:+ g +:+ " not found");
                    isError := true |} /\
  final again = final u.
Proof.
  intros Hs Hg u again. subst again u.
  destruct (reachable_keyed types s Hs) as (_ & Hnd & _).
  destruct (JsMap.get g (groups (scene s))) as [ids|] eqn:Hget.
  - split; [done|].
    rewrite (ungroup_elements_outcome _ _ _ _ _ _ Hg Hget). cbn [final].
    assert (Hgone : JsMap.get g (groups (scene (with_groups s
                      (JsMap.delete g (groups (scene s)))))) = None)
      by (by apply Map_get_delete_eq).
    by rewrite (ungroup_elements_not_found _ _ _ _ _ Hg Hgone).
  - rewrite (ungroup_elements_not_found _ _ _ _ _ Hg Hget). cbn [final].
    split; [done|]. by rewrite (ungroup_elements_not_found _ _ _ _ _ Hg Hget).
Qed.

Lemma ungroup_unknown_group_witness :
  let u := call_tool listed_types "ungroup_elements" Sample.env0 Sample2.grouped
             (literal [("groupId", VStr "el-3")]) in
  let again := call_tool listed_types "ungroup_elements" Sample.env1 (final u)
                 (literal [("groupId", VStr "el-3")]) in
  (JsMap.get "el-3" (groups (scene Sample2.grouped)) = None ->
   final u = Sample2.grouped /\ written u = [] /\
   result u = {| content := Plain ("Error: Group " +:+ "el-3" +:+ " not found");
                 isError := true |}) /\
  result again = {| content := Plain ("Error: Group " +:+ "el-3" +:+ " not found");
                    isError := true |} /\
  final again = final u.
Proof.
  apply (ungroup_unknown_group listed_types Sample.env0 Sample.env1 Sample2.grouped
           (literal [("groupId", VStr "el-3")]) "el-3").
  - do 3 apply reachable_call. apply reachable_initial.
  - reflexivity.
Defined.
